(** * ValueLens API v4: the resolution engine of [app.py]

    A shallow embedding of the Flask backend: the process-wide cache
    ([cached], [set_cache]), the metric calculator ([calc_cagr]) and the
    three caching routes ([search], [fullstock], [batch_quotes]).

    Conventions of the embedding.
    - Python values are the type [pyval]; a dict is an association list in
      insertion order (what a dict literal and [jsonify] preserve).
    - Python numbers (int and finite float alike) are real numbers: binary64
      rounding, infinities and NaN are not modelled.  [math.pow] on a
      positive base is [Rpower], [round(x, k)] rounds half to even.
    - Strings are byte strings; [upper], [lower] and [strip] act on ASCII.
    - An exception is the [Raise] outcome of the result type [res].
    - The module-level [cache], the wall clock read by [time.time()] and the
      log of outbound requests form the [state] threaded through a route.
    - What an upstream service answers is an oracle of the environment
      [providers]; every outbound request is appended to [calls] and lets
      the clock advance by its latency. *)

From Stdlib Require Import Reals Lra Lia ZArith Ascii String List.
From stdpp Require Import base option list sorting gmap strings.

Local Open Scope string_scope.
Local Open Scope Z_scope.
Local Open Scope list_scope.

(** ** Python values *)

#[warnings="-register-all"]
Inductive pyval : Type :=
| VNone
| VBool (b : bool)
| VNum (x : R)
| VStr (s : string)
| VList (l : list pyval)
| VDict (kv : list (string * pyval)).

Definition dict : Type := list (string * pyval).

Inductive exn : Type :=
| TypeError
| ValueError
| ZeroDivisionError
| IndexError
| KeyError
| AttributeError
| ConnectionError.

Inductive res (A : Type) : Type :=
| Ok (a : A)
| Raise (e : exn).
Arguments Ok {A} a.
Arguments Raise {A} e.

#[global] Instance res_ret : MRet res := fun _ a => Ok a.
#[global] Instance res_bind : MBind res := fun _ _ f m =>
  match m with
  | Ok a => f a
  | Raise e => Raise e
  end.

(** [bool(v)]: the truth value Python gives [v] in [if v] and [not v]. *)
Definition truthy (v : pyval) : bool :=
  match v with
  | VNone => false
  | VBool b => b
  | VNum x => if Req_dec_T x 0 then false else true
  | VStr s => negb (String.eqb s "")
  | VList l => match l with [] => false | _ => true end
  | VDict kv => match kv with [] => false | _ => true end
  end.

(** The number a value stands for in arithmetic and ordering; [bool] is a
    subclass of [int]. *)
Definition as_num (v : pyval) : option R :=
  match v with
  | VNum x => Some x
  | VBool true => Some 1%R
  | VBool false => Some 0%R
  | _ => None
  end.

(** [v > c] and [v <= c] against a numeric literal [c]. *)
Definition py_gt (v : pyval) (c : R) : res bool :=
  match as_num v with
  | Some x => Ok (if Rlt_dec c x then true else false)
  | None => Raise TypeError
  end.

Definition py_le (v : pyval) (c : R) : res bool :=
  match as_num v with
  | Some x => Ok (if Rle_dec x c then true else false)
  | None => Raise TypeError
  end.

(** [v / w], true division. *)
Definition py_div (v w : pyval) : res pyval :=
  match as_num v, as_num w with
  | Some x, Some y =>
      if Req_dec_T y 0 then Raise ZeroDivisionError else Ok (VNum (x / y))
  | _, _ => Raise TypeError
  end.

(** Nearest integer, ties to the even one. *)
Definition round_half_even (x : R) : Z :=
  let f := Zfloor x in
  if Rlt_dec (x - IZR f) (1 / 2) then f
  else if Rlt_dec (1 / 2) (x - IZR f) then f + 1
  else if Z.even f then f else f + 1.

(** [x] to [ndigits] decimal places. *)
Definition round_to (ndigits : nat) (x : R) : R :=
  (IZR (round_half_even (x * 10 ^ ndigits)) / 10 ^ ndigits)%R.

(** [round(v, ndigits)] for [ndigits >= 0]. *)
Definition py_round (v : pyval) (ndigits : nat) : res pyval :=
  match as_num v with
  | Some x => Ok (VNum (round_to ndigits x))
  | None => Raise TypeError
  end.

(** [math.pow(x, y)] on numbers. *)
Definition math_pow (x y : R) : res R :=
  if Rlt_dec 0 x then Ok (Rpower x y)
  else if Req_dec_T x 0 then
    if Rlt_dec 0 y then Ok 0%R
    else if Req_dec_T y 0 then Ok 1%R
    else Raise ValueError
  else if Req_dec_T y (IZR (Zfloor y)) then Ok (powerRZ x (Zfloor y))
  else Raise ValueError.

(** [d.get(key, default)] *)
Fixpoint dict_get (key : string) (kv : dict) (default : pyval) : pyval :=
  match kv with
  | [] => default
  | (k, v) :: rest => if String.eqb k key then v else dict_get key rest default
  end.

(** [l[i]] with Python's negative indices. *)
Definition py_index {A : Type} (l : list A) (i : Z) : res A :=
  let len := Z.of_nat (length l) in
  let j := if i <? 0 then len + i else i in
  if (0 <=? j) && (j <? len) then
    match l !! Z.to_nat j with
    | Some a => Ok a
    | None => Raise IndexError
    end
  else Raise IndexError.

(** ** HELPERS *)

(** [calc_cagr(arr, field, n)]: CAGR over [n] years of yearly data. *)
Definition calc_cagr (arr : list dict) (field : string) (n : Z) : res pyval :=
  if Z.of_nat (length arr) <? n + 1 then Ok VNone
  else
    a0 ← py_index arr 0;
    let a := dict_get field a0 (VNum 0) in
    an ← py_index arr n;
    let b := dict_get field an (VNum 0) in
    nb ← (if negb (truthy b) then Ok true else py_le b 0);
    if nb : bool then Ok VNone
    else
      na ← (if negb (truthy a) then Ok true else py_le a 0);
      if na : bool then Ok VNone
      else
        q ← py_div a b;
        e ← py_div (VNum 1) (VNum (IZR n));
        match as_num q, as_num e with
        | Some qx, Some ex =>
            p ← math_pow qx ex;
            py_round (VNum ((p - 1) * 100)) 1
        | _, _ => Raise TypeError
        end.

(** ** Strings *)

Definition upper_ascii (c : ascii) : ascii :=
  let k := nat_of_ascii c in
  if ((97 <=? k) && (k <=? 122))%nat then ascii_of_nat (k - 32) else c.

Definition lower_ascii (c : ascii) : ascii :=
  let k := nat_of_ascii c in
  if ((65 <=? k) && (k <=? 90))%nat then ascii_of_nat (k + 32) else c.

Fixpoint map_string (f : ascii -> ascii) (s : string) : string :=
  match s with
  | EmptyString => EmptyString
  | String c rest => String (f c) (map_string f rest)
  end.

(** [s.upper()], [s.lower()] *)
Definition upper (s : string) : string := map_string upper_ascii s.
Definition lower (s : string) : string := map_string lower_ascii s.

(** ASCII whitespace as [str.isspace] sees it. *)
Definition isspace (c : ascii) : bool :=
  let k := nat_of_ascii c in
  (((9 <=? k) && (k <=? 13)) || ((28 <=? k) && (k <=? 32)))%nat.

Fixpoint lstrip (s : string) : string :=
  match s with
  | EmptyString => EmptyString
  | String c rest => if isspace c then lstrip rest else s
  end.

(** [s.strip()] *)
Definition strip (s : string) : string :=
  String.rev (lstrip (String.rev (lstrip s))).

(** [s.replace(old, new)] for a non-empty [old]: occurrences are found left
    to right and do not overlap.  [skip] counts the characters of a matched
    occurrence still to be dropped. *)
Fixpoint replace_from (skip : nat) (old new s : string) : string :=
  match s with
  | EmptyString => EmptyString
  | String c rest =>
      match skip with
      | S k => replace_from k old new rest
      | O =>
          if String.prefix old s
          then new +:+ replace_from (String.length old - 1) old new rest
          else String c (replace_from 0 old new rest)
      end
  end.

Definition replace (old new s : string) : string := replace_from 0 old new s.

(** [sep.join(l)] *)
Definition join (sep : string) (l : list string) : string := String.concat sep l.

(** [sorted(l)] on strings: ascending, code point by code point. *)
Definition sorted (l : list string) : list string := merge_sort String.le l.

(** ** CONFIG *)

Definition ISMA_BASE : string :=
  "https://military-jobye-haiqstudios-14f59639.koyeb.app".

(** ** The outside world *)

(** What [requests.get] produces: an exception, or a response with its
    status code and, when the body parses, the value of [resp.json()]. *)
Inductive http_response : Type :=
| Failed (e : exn)
| Response (status_code : Z) (json : option pyval).

(** Outbound requests, as the routes and adapters issue them. *)
Inductive request : Type :=
| Get (url : string)
| GetEodhd (ticker : string)
| YfFinancials (ticker : string)
| YfInfo (ticker : string).

(** One income statement as both financials adapters build it:
    [{"year": year, "rev": round(rev / 1e7, 2), "pat": round(pat / 1e7, 2)}]. *)
Record statement : Type := { year : string; rev : R; pat : R }.

Definition statement_dict (y : statement) : dict :=
  [("year", VStr (year y)); ("rev", VNum (rev y)); ("pat", VNum (pat y))].

(** The environment a request is served in.  [EODHD_KEY] is the process
    configuration; the other fields say what each upstream answers. *)
Record providers : Type := {
  EODHD_KEY : string;
  latency : request -> R;
  requests_get : string -> http_response;
  eodhd_years : string -> option (list statement);
  yf_financials : string -> option (list statement * pyval);
  yf_info : string -> res pyval
}.

(** ** CACHE *)

Record entry : Type := { d : pyval; t : R }.

Record state : Type := {
  cache : gmap string entry;
  clock : R;
  calls : list request
}.

Definition TTL : list (string * R) :=
  [("quote", 300%R); ("financials", 86400%R); ("search", 86400%R)].

(** [TTL.get(ttl_type, 300)] *)
Fixpoint TTL_get (table : list (string * R)) (ttl_type : string) : R :=
  match table with
  | [] => 300%R
  | (k, v) :: rest => if String.eqb k ttl_type then v else TTL_get rest ttl_type
  end.
Arguments TTL_get : simpl never.

(** Stateful computations that may raise. *)
Definition M (A : Type) : Type := state -> res A * state.

#[global] Instance M_ret : MRet M := fun _ a s => (Ok a, s).
#[global] Instance M_bind : MBind M := fun _ _ f m s =>
  match m s with
  | (Ok a, s') => f a s'
  | (Raise e, s') => (Raise e, s')
  end.

Definition lift {A : Type} (r : res A) : M A := fun s => (r, s).

(** [cached(key, ttl_type)] *)
Definition cached (key ttl_type : string) : M pyval := fun s =>
  match cache s !! key with
  | None => (Ok VNone, s)
  | Some ent =>
      if Rlt_dec (TTL_get TTL ttl_type) (clock s - t ent)
      then (Ok VNone,
            {| cache := delete key (cache s); clock := clock s; calls := calls s |})
      else (Ok (d ent), s)
  end.

(** [set_cache(key, data)] *)
Definition set_cache (key : string) (data : pyval) : M unit := fun s =>
  (Ok tt,
   {| cache := <[key := {| d := data; t := clock s |}]> (cache s);
      clock := clock s; calls := calls s |}).

(** Issuing a request: it is logged and takes its latency. *)
Definition perform (env : providers) (r : request) : M unit := fun s =>
  (Ok tt,
   {| cache := cache s; clock := (clock s + latency env r)%R;
      calls := calls s ++ [r] |}).

(** ** LAYER 1: Indian Stock Market API *)

(** The dict [fetch_isma] returns on success; each field is whatever
    [d.get(key, default)] finds in the payload. *)
Record quote : Type := {
  cmp : pyval;
  mcap_raw : pyval;
  pe : pyval;
  eps : pyval;
  sector : pyval;
  industry : pyval;
  name : pyval;
  change : pyval;
  changePct : pyval;
  yearHigh : pyval;
  yearLow : pyval;
  volume : pyval;
  bookValue : pyval;
  dividendYield : pyval
}.

(** [symbol.replace(".NS", "").replace(".BO", "")] *)
Definition clean_symbol (symbol : string) : string :=
  replace ".BO" "" (replace ".NS" "" symbol).

(** [data.get("status") != "success"] *)
Definition status_not_success (data : dict) : bool :=
  match dict_get "status" data VNone with
  | VStr s => negb (String.eqb s "success")
  | _ => true
  end.

(** The part of [fetch_isma] that follows [requests.get]; every exception
    is caught and turned into [None]. *)
Definition parse_isma (resp : http_response) : option quote :=
  match resp with
  | Failed _ => None
  | Response status_code json =>
      if negb (status_code =? 200) then None
      else
        match json with
        | Some (VDict data) =>
            if status_not_success data then None
            else
              match dict_get "data" data (VDict []) with
              | VDict dd =>
                  Some {| cmp := dict_get "last_price" dd (VNum 0);
                          mcap_raw := dict_get "market_cap" dd (VNum 0);
                          pe := dict_get "pe_ratio" dd (VNum 0);
                          eps := dict_get "earnings_per_share" dd (VNum 0);
                          sector := dict_get "sector" dd (VStr "");
                          industry := dict_get "industry" dd (VStr "");
                          name := dict_get "company_name" dd (VStr "");
                          change := dict_get "change" dd (VNum 0);
                          changePct := dict_get "percent_change" dd (VNum 0);
                          yearHigh := dict_get "year_high" dd (VNum 0);
                          yearLow := dict_get "year_low" dd (VNum 0);
                          volume := dict_get "volume" dd (VNum 0);
                          bookValue := dict_get "book_value" dd (VNum 0);
                          dividendYield := dict_get "dividend_yield" dd (VNum 0) |}
              | _ => None
              end
        | _ => None
        end
  end.

(** [f"{ISMA_BASE}/stock?symbol={clean}&res=num"] *)
Definition stock_url (clean : string) : string :=
  ISMA_BASE +:+ "/stock?symbol=" +:+ clean +:+ "&res=num".

(** What [fetch_isma(symbol)] returns. *)
Definition isma_data (env : providers) (symbol : string) : option quote :=
  parse_isma (requests_get env (stock_url (clean_symbol symbol))).

(** [fetch_isma(symbol)] *)
Definition fetch_isma (env : providers) (symbol : string) : M (option quote) :=
  perform env (Get (stock_url (clean_symbol symbol)));;
  mret (isma_data env symbol).

(** The comprehension of [search_isma]: one hit per result, an exception
    as soon as a result is not a dict. *)
Fixpoint search_hits (results : list pyval) : res (list pyval) :=
  match results with
  | [] => Ok []
  | VDict r :: rest =>
      hits ← search_hits rest;
      Ok (VDict [("sym", dict_get "symbol" r (VStr ""));
                 ("name", dict_get "company_name" r (VStr ""));
                 ("sec", VStr "NSE")] :: hits)
  | _ :: _ => Raise AttributeError
  end.

Definition parse_search (resp : http_response) : list pyval :=
  match resp with
  | Failed _ => []
  | Response status_code json =>
      if negb (status_code =? 200) then []
      else
        match json with
        | Some (VDict data) =>
            if status_not_success data then []
            else
              match dict_get "results" data (VList []) with
              | VList results =>
                  match search_hits (take 15 results) with
                  | Ok hits => hits
                  | Raise _ => []
                  end
              | _ => []
              end
        | _ => []
        end
  end.

(** [f"{ISMA_BASE}/search?query={query}"] *)
Definition search_url (query : string) : string :=
  ISMA_BASE +:+ "/search?query=" +:+ query.

(** [search_isma(query)] *)
Definition search_isma (env : providers) (query : string) : M (list pyval) :=
  perform env (Get (search_url query));;
  mret (parse_search (requests_get env (search_url query))).

(** ** LAYER 2 and 3: financial statements *)

(** [{"years": years, "shares": shares}] *)
Record financials : Type := { years : list dict; shares : pyval }.

(** ["." in symbol] *)
Fixpoint has_dot (s : string) : bool :=
  match s with
  | EmptyString => false
  | String c rest => Ascii.eqb c "." || has_dot rest
  end.

(** [fetch_yfinance_financials(symbol)]; what the ticker object yields is
    the oracle [yf_financials]: no data, or the statements and the
    [sharesOutstanding] entry of [t.info]. *)
Definition yf_ticker (symbol : string) : string :=
  if has_dot symbol then symbol else symbol +:+ ".NS".

Definition yfinance_data (env : providers) (symbol : string) : option financials :=
  match yf_financials env (yf_ticker symbol) with
  | Some (ys, sh) => Some {| years := map statement_dict ys; shares := sh |}
  | None => None
  end.

Definition fetch_yfinance_financials (env : providers) (symbol : string)
  : M (option financials) :=
  perform env (YfFinancials (yf_ticker symbol));;
  mret (yfinance_data env symbol).

(** [fetch_eodhd_financials(symbol)]; without a key no request is made. *)
Definition eodhd_ticker (symbol : string) : string :=
  clean_symbol symbol +:+ ".NSE".

Definition eodhd_data (env : providers) (symbol : string) : option financials :=
  if String.eqb (EODHD_KEY env) "" then None
  else
    match eodhd_years env (eodhd_ticker symbol) with
    | Some ys => Some {| years := map statement_dict ys; shares := VNum 0 |}
    | None => None
    end.

Definition fetch_eodhd_financials (env : providers) (symbol : string)
  : M (option financials) :=
  if String.eqb (EODHD_KEY env) "" then mret None
  else
    perform env (GetEodhd (eodhd_ticker symbol));;
    mret (eodhd_data env symbol).

(** ** ROUTES *)

(** [x[key]] on a dict *)
Fixpoint py_getitem (kv : dict) (key : string) : res pyval :=
  match kv with
  | [] => Raise KeyError
  | (k, v) :: rest => if String.eqb k key then Ok v else py_getitem rest key
  end.

(** The [result] dict literal of [fullstock]. *)
Definition result_dict (sym : string) (isma : option quote)
    (cmp_ shr mcapCr pe_ eps_ latest_pat latest_rev r3 r5 p3 p5 : pyval)
    (fin_source : option string) (years_ : list dict) : pyval :=
  VDict [
    ("sym", VStr sym);
    ("name", match isma with Some q => name q | None => VStr sym end);
    ("sec", match isma with Some q => sector q | None => VStr "Unknown" end);
    ("industry", match isma with Some q => industry q | None => VStr "" end);
    ("cmp", cmp_);
    ("shr", shr);
    ("mcapCr", mcapCr);
    ("pe", pe_);
    ("eps", eps_);
    ("pat", latest_pat);
    ("rev", latest_rev);
    ("r3", r3);
    ("r5", r5);
    ("p3", p3);
    ("p5", p5);
    ("dayChange", match isma with Some q => change q | None => VNum 0 end);
    ("dayChangePct", match isma with Some q => changePct q | None => VNum 0 end);
    ("yearHigh", match isma with Some q => yearHigh q | None => VNum 0 end);
    ("yearLow", match isma with Some q => yearLow q | None => VNum 0 end);
    ("bookValue", match isma with Some q => bookValue q | None => VNum 0 end);
    ("dividendYield", match isma with Some q => dividendYield q | None => VNum 0 end);
    ("_source", VDict [
       ("realtime", VStr (match isma with Some _ => "isma" | None => "none" end));
       ("financials", VStr (default "none" fin_source));
       ("years_available", VNum (INR (length years_)))])].

(** The MERGE section of [fullstock]: from the adapters' answers to the
    [result] dict. *)
Definition fullstock_merge (sym : string) (isma : option quote)
    (fin : option financials) (fin_source : option string) : res pyval :=
  let cmp_ := match isma with Some q => cmp q | None => VNum 0 end in
  let mcap_raw_ := match isma with Some q => mcap_raw q | None => VNum 0 end in
  big ← py_gt mcap_raw_ 1e6;
  mcap_cr ← (if big : bool then py_div mcap_raw_ (VNum 1e7) else Ok mcap_raw_);
  let pe_ := match isma with Some q => pe q | None => VNum 0 end in
  let eps_ := match isma with Some q => eps q | None => VNum 0 end in
  priced ← py_gt cmp_ 0;
  valued ← (if priced : bool then py_gt mcap_cr 0 else Ok false);
  shr_cr ← (if valued : bool then py_div mcap_cr cmp_ else Ok (VNum 0));
  let years_ := match fin with Some f => years f | None => [] end in
  latest_rev ← match years_ with
               | y0 :: _ => py_getitem y0 "rev"
               | [] => Ok (VNum 0)
               end;
  latest_pat ← match years_ with
               | y0 :: _ => py_getitem y0 "pat"
               | [] => Ok (VNum 0)
               end;
  shr ← py_round shr_cr 2;
  mcapCr ← py_round mcap_cr 0;
  r3 ← calc_cagr years_ "rev" 3;
  r5 ← calc_cagr years_ "rev" 5;
  p3 ← calc_cagr years_ "pat" 3;
  p5 ← calc_cagr years_ "pat" 5;
  Ok (result_dict sym isma cmp_ shr mcapCr pe_ eps_ latest_pat latest_rev
        r3 r5 p3 p5 fin_source years_).

(** LAYER 2 of [fullstock]: EODHD first, then yfinance. *)
Definition fetch_financials (env : providers) (sym : string)
  : M (option financials * option string) :=
  fin ← fetch_eodhd_financials env sym;
  match fin with
  | Some _ => mret (fin, Some "eodhd")
  | None =>
      fin' ← fetch_yfinance_financials env sym;
      mret (fin', match fin' with Some _ => Some "yfinance" | None => None end)
  end.

(** [symbol.upper().replace(".NS", "").replace(".BO", "")] *)
Definition normalize (symbol : string) : string := clean_symbol (upper symbol).

(** [f"full:{sym}"] *)
Definition full_key (sym : string) : string := "full:" +:+ sym.

(** [GET /api/fullstock/<symbol>]; the value is what [jsonify] is given. *)
Definition fullstock (env : providers) (symbol : string) : M pyval :=
  let sym := normalize symbol in
  let ck := full_key sym in
  c ← cached ck "quote";
  if truthy c then (mret c : M pyval)
  else
    isma ← fetch_isma env sym;
    '(fin, fin_source) ← fetch_financials env sym;
    result ← lift (fullstock_merge sym isma fin fin_source);
    set_cache ck result;;
    mret result.

(** The yfinance backup of [search]: the raw query tried as a ticker.  The
    bare [except] swallows whatever goes wrong and leaves [results] as it
    was. *)
Definition yf_backup (q : string) (info_ : res pyval) (results : list pyval)
  : list pyval :=
  match info_ with
  | Raise _ => results
  | Ok i =>
      match (if truthy i then i else VDict []) with
      | VDict info =>
          if truthy (dict_get "regularMarketPrice" info VNone)
          then [VDict [("sym", VStr (upper q));
                       ("name", dict_get "longName" info
                                  (dict_get "shortName" info (VStr (upper q))));
                       ("sec", dict_get "sector" info (VStr "NSE"))]]
          else results
      | _ => results
      end
  end.

(** [f"search:{q.lower()}"] *)
Definition search_key (q : string) : string := "search:" +:+ lower q.

(** [GET /api/search?q=<arg>] *)
Definition search (env : providers) (arg : string) : M pyval :=
  let q := strip arg in
  if negb (truthy (VStr q)) || (String.length q <? 2)%nat
  then (mret (VList []) : M pyval)
  else
    let ck := search_key q in
    c ← cached ck "search";
    if truthy c then (mret c : M pyval)
    else
      results ← search_isma env q;
      results ← (if negb (truthy (VList results))
                 then perform env (YfInfo (q +:+ ".NS"));;
                      mret (yf_backup q (yf_info env (q +:+ ".NS")) results)
                 else (mret results : M (list pyval)));
      set_cache ck (VList results);;
      mret (VList results).

(** One element of the batch response mapped to its summary. *)
Definition quote_summary (s : pyval) : res pyval :=
  match s with
  | VDict kv =>
      cr ← py_div (dict_get "market_cap" kv (VNum 0)) (VNum 1e7);
      mcapCr ← py_round cr 0;
      Ok (VDict [("sym", dict_get "symbol" kv (VStr ""));
                 ("name", dict_get "company_name" kv (VStr ""));
                 ("cmp", dict_get "last_price" kv (VNum 0));
                 ("pe", dict_get "pe_ratio" kv (VNum 0));
                 ("mcapCr", mcapCr);
                 ("dayChangePct", dict_get "percent_change" kv (VNum 0))])
  | _ => Raise AttributeError
  end.

(** What [for s in v] runs over. *)
Definition py_iter (v : pyval) : res (list pyval) :=
  match v with
  | VList l => Ok l
  | VDict kv => Ok (map (fun p => VStr (fst p)) kv)
  | VStr s => Ok (map (fun c => VStr (String c "")) (list_ascii_of_string s))
  | _ => Raise TypeError
  end.

(** The [for] loop of [batch_quotes]: [results] as the loop leaves it, and
    the exception that ended it early, if any. *)
Fixpoint append_summaries (stocks results : list pyval)
  : list pyval * option exn :=
  match stocks with
  | [] => (results, None)
  | s :: rest =>
      match quote_summary s with
      | Ok r => append_summaries rest (results ++ [r])
      | Raise e => (results, Some e)
      end
  end.

(** The [try] block of [batch_quotes] after [requests.get], together with
    its [except]: the final [results] and the exception logged, if any. *)
Definition batch_results (resp : http_response) : list pyval * option exn :=
  match resp with
  | Failed e => ([], Some e)
  | Response status_code json =>
      if status_code =? 200 then
        match json with
        | None => ([], Some ValueError)
        | Some (VDict data) =>
            match py_iter (dict_get "stocks" data (VList [])) with
            | Ok stocks => append_summaries stocks []
            | Raise e => ([], Some e)
            end
        | Some _ => ([], Some AttributeError)
        end
      else ([], None)
  end.

(** [f"{ISMA_BASE}/stock/list?symbols={syms_str}&res=num"] *)
Definition batch_url (symbols : list string) : string :=
  let syms_str := join "," (map clean_symbol (take 20 symbols)) in
  ISMA_BASE +:+ "/stock/list?symbols=" +:+ syms_str +:+ "&res=num".

(** [f"batch:{'_'.join(sorted(symbols[:20]))}"] *)
Definition batch_key (symbols : list string) : string :=
  "batch:" +:+ join "_" (sorted (take 20 symbols)).

(** [POST /api/batch-quotes] with body [{"symbols": symbols}] *)
Definition batch_quotes (env : providers) (symbols : list string) : M pyval :=
  match symbols with
  | [] => mret (VList [])
  | _ :: _ =>
      let ck := batch_key symbols in
      c ← cached ck "quote";
      if truthy c then (mret c : M pyval)
      else
        let url := batch_url symbols in
        perform env (Get url);;
        let results := fst (batch_results (requests_get env url)) in
        set_cache ck (VList results);;
        mret (VList results)
  end.

(** [GET /]: the health summary. *)
Definition health (env : providers) : M pyval := fun s =>
  (Ok (VDict [
     ("status", VStr "ok");
     ("service", VStr "ValueLens API v4");
     ("sources", VDict [
        ("realtime", VStr "Indian Stock Market API (INR)");
        ("financials", VStr (if truthy (VStr (EODHD_KEY env))
                             then "EODHD" else "Yahoo Finance (INR)"));
        ("fallback", VStr "Local hardcoded data")]);
     ("cache_entries", VNum (INR (size (cache s))));
     ("eodhd_configured", VBool (truthy (VStr (EODHD_KEY env))))]),
   s).

(** A field of a JSON object. *)
Definition field (key : string) (v : pyval) : pyval :=
  match v with
  | VDict kv => dict_get key kv VNone
  | _ => VNone
  end.

(** ** Vocabulary of the statements *)

(** What a yearly record holds under a field, as the metric calculator
    reads it: a number, or nothing (no such key, or [None]). *)
Definition number_at (fld : string) (y : dict) : option R :=
  as_num (dict_get fld y VNone).

(** A yearly record whose entry under a field, if any, is a number. *)
Definition number_or_absent (fld : string) (y : dict) : Prop :=
  dict_get fld y VNone = VNone \/ exists x, dict_get fld y VNone = VNum x.

(** The growth rate the calculator reports for endpoint values [a] (latest)
    and [b] ([n] years back). *)
Definition cagr_value (a b : R) (n : Z) : R :=
  round_to 1 ((Rpower (a / b) (1 / IZR n) - 1) * 100)%R.

(** Market cap in crores, in the words of the specification: the raw value
    divided by 10,000,000 when it exceeds 1,000,000, else unchanged. *)
Definition crores (raw : R) : R :=
  if Rlt_dec 1e6 raw then (raw / 1e7)%R else raw.

(** Shares outstanding in crores, in the words of the specification: market
    cap over price when both are positive, else 0. *)
Definition derived_shares (mcap_cr price : R) : R :=
  if Rlt_dec 0 price then
    if Rlt_dec 0 mcap_cr then (mcap_cr / price)%R else 0%R
  else 0%R.

(** The growth rate of a field over [n] years of statements, [None] when
    it is not computable. *)
Definition cagr_of (get : statement -> R) (ys : list statement) (n : Z) : pyval :=
  match ys !! 0%nat, ys !! Z.to_nat n with
  | Some y0, Some yn =>
      if Rlt_dec 0 (get y0) then
        if Rlt_dec 0 (get yn) then VNum (cagr_value (get y0) (get yn) n)
        else VNone
      else VNone
  | _, _ => VNone
  end.

(** The price and the raw market cap the merge works from. *)
Definition price_of (isma : option quote) : pyval :=
  match isma with Some q => cmp q | None => VNum 0 end.

Definition raw_cap_of (isma : option quote) : pyval :=
  match isma with Some q => mcap_raw q | None => VNum 0 end.

(** The merged record for realtime answer [isma] with price [p] and raw
    market cap [m], and statements [ys] from the source [fin_source]. *)
Definition merged (sym : string) (isma : option quote) (p m : R)
    (ys : list statement) (fin_source : option string) : pyval :=
  result_dict sym isma (price_of isma)
    (VNum (round_to 2 (derived_shares (crores m) p)))
    (VNum (round_to 0 (crores m)))
    (match isma with Some q => pe q | None => VNum 0 end)
    (match isma with Some q => eps q | None => VNum 0 end)
    (match ys with y0 :: _ => VNum (pat y0) | [] => VNum 0 end)
    (match ys with y0 :: _ => VNum (rev y0) | [] => VNum 0 end)
    (cagr_of rev ys 3) (cagr_of rev ys 5) (cagr_of pat ys 3) (cagr_of pat ys 5)
    fin_source (map statement_dict ys).

(** The statements behind an answer of LAYER 2. *)
Definition statements_of (fin : option financials) (ys : list statement) : Prop :=
  match fin with
  | Some f => years f = map statement_dict ys
  | None => ys = []
  end.

(** A realtime answer whose price and market cap are numbers. *)
Definition numeric_quote (q : quote) : Prop :=
  is_Some (as_num (cmp q)) /\ is_Some (as_num (mcap_raw q)).

(** The record served for a symbol no provider has data for. *)
Definition empty_record (sym : string) : pyval :=
  VDict [
    ("sym", VStr sym);
    ("name", VStr sym);
    ("sec", VStr "Unknown");
    ("industry", VStr "");
    ("cmp", VNum 0);
    ("shr", VNum 0);
    ("mcapCr", VNum 0);
    ("pe", VNum 0);
    ("eps", VNum 0);
    ("pat", VNum 0);
    ("rev", VNum 0);
    ("r3", VNone);
    ("r5", VNone);
    ("p3", VNone);
    ("p5", VNone);
    ("dayChange", VNum 0);
    ("dayChangePct", VNum 0);
    ("yearHigh", VNum 0);
    ("yearLow", VNum 0);
    ("bookValue", VNum 0);
    ("dividendYield", VNum 0);
    ("_source", VDict [
       ("realtime", VStr "none");
       ("financials", VStr "none");
       ("years_available", VNum 0)])].

(** [s] without [suffix] at its end, when it ends in it. *)
Definition strip_suffix (suffix s : string) : string :=
  let n := (String.length s - String.length suffix)%nat in
  if ((String.length suffix <=? String.length s)%nat
      && String.eqb (substring n (String.length suffix) s) suffix)%bool
  then substring 0 n s
  else s.

(** Normalisation with only trailing suffixes removed: uppercase, then a
    final [.NS] and a final [.BO] dropped. *)
Definition normalize_trailing (symbol : string) : string :=
  strip_suffix ".BO" (strip_suffix ".NS" (upper symbol)).

(** The payload of a run, [None] if it raised. *)
Definition outcome (run : res pyval * state) : pyval :=
  match fst run with
  | Ok r => r
  | Raise _ => VNone
  end.

(** The summaries of the elements that precede the first one the batch loop
    cannot map. *)
Fixpoint mapped_prefix (stocks : list pyval) : list pyval :=
  match stocks with
  | [] => []
  | s :: rest =>
      match quote_summary s with
      | Ok r => r :: mapped_prefix rest
      | Raise _ => []
      end
  end.

(** What a search for [q] that goes upstream ends with, and the requests it
    sends: the yfinance backup only when the primary search finds nothing. *)
Definition search_results (env : providers) (q : string) : list pyval :=
  match parse_search (requests_get env (search_url q)) with
  | [] => yf_backup q (yf_info env (q +:+ ".NS")) []
  | hits => hits
  end.

Definition search_requests (env : providers) (q : string) : list request :=
  Get (search_url q)
  :: match parse_search (requests_get env (search_url q)) with
     | [] => [YfInfo (q +:+ ".NS")]
     | _ => []
     end.

(** ** Sample worlds *)

(** Every upstream is down and no EODHD key is configured. *)
Definition all_down : providers :=
  {| EODHD_KEY := "";
     latency := fun _ => 1%R;
     requests_get := fun _ => Failed ConnectionError;
     eodhd_years := fun _ => None;
     yf_financials := fun _ => None;
     yf_info := fun _ => Raise ConnectionError |}.

Definition sample_payload : pyval :=
  VDict [("status", VStr "success");
         ("data", VDict [("last_price", VNum 10);
                         ("market_cap", VNum 5000000000);
                         ("company_name", VStr "Tata Consultancy Services")])].

Definition sample_statements : list statement :=
  [{| year := "2024"; rev := 200; pat := 40 |};
   {| year := "2023"; rev := 150; pat := 30 |};
   {| year := "2022"; rev := 100; pat := 20 |}].

(** Every upstream answers; EODHD is configured with [key]. *)
Definition all_up (key : string) : providers :=
  {| EODHD_KEY := key;
     latency := fun _ => 1%R;
     requests_get := fun _ => Response 200 (Some sample_payload);
     eodhd_years := fun _ => Some sample_statements;
     yf_financials := fun _ => Some (sample_statements, VNum 1000);
     yf_info := fun _ => Ok (VDict []) |}.

(** The realtime provider quotes [price] and [cap]; yfinance supplies the
    sample statements and the share count [count]; no EODHD key. *)
Definition quoting (price cap : R) (count : pyval) : providers :=
  {| EODHD_KEY := "";
     latency := fun _ => 1%R;
     requests_get := fun _ =>
       Response 200
         (Some (VDict [("status", VStr "success");
                       ("data", VDict [("last_price", VNum price);
                                       ("market_cap", VNum cap)])]));
     eodhd_years := fun _ => None;
     yf_financials := fun _ => Some (sample_statements, count);
     yf_info := fun _ => Ok (VDict []) |}.

(** The realtime provider answers every request with [resp]. *)
Definition answering (resp : http_response) : providers :=
  {| EODHD_KEY := "";
     latency := fun _ => 1%R;
     requests_get := fun _ => resp;
     eodhd_years := fun _ => None;
     yf_financials := fun _ => None;
     yf_info := fun _ => Raise ConnectionError |}.

(** A realtime answer that reports success with a null market cap. *)
Definition null_cap_answer : http_response :=
  Response 200
    (Some (VDict [("status", VStr "success");
                  ("data", VDict [("last_price", VNum 10);
                                  ("market_cap", VNone)])])).

(** A batch payload whose second element has no usable market cap. *)
Definition half_good_batch : http_response :=
  Response 200
    (Some (VDict [("stocks",
                   VList [VDict [("symbol", VStr "TCS");
                                 ("market_cap", VNum 1000000000000)];
                          VDict [("symbol", VStr "BAD");
                                 ("market_cap", VNone)]])])).

(** A freshly started process. *)
Definition cold : state := {| cache := ∅; clock := 0; calls := [] |}.

(** At time [now], a process whose cache holds [payload] under [key],
    stored at time 0. *)
Definition holding (key : string) (payload : pyval) (now : R) : state :=
  {| cache := {[ key := {| d := payload; t := 0 |} ]}; clock := now; calls := [] |}.

(** The state once the requests [rs] have gone out, in that order. *)
Definition issue (env : providers) (rs : list request) (s : state) : state :=
  {| cache := cache s;
     clock := fold_left (fun now r => (now + latency env r)%R) rs (clock s);
     calls := calls s ++ rs |}.

(** The state once [data] is stored under [key]. *)
Definition store (key : string) (data : pyval) (s : state) : state :=
  {| cache := <[key := {| d := data; t := clock s |}]> (cache s);
     clock := clock s; calls := calls s |}.

(** The state once the entry under [key] is dropped. *)
Definition evict (key : string) (s : state) : state :=
  {| cache := delete key (cache s); clock := clock s; calls := calls s |}.

(** The payload a route serves from the cache: what [cached] returns, when
    the route's [if c] lets it through. *)
Definition served (key ttl_type : string) (s : state) : option pyval :=
  match fst (cached key ttl_type s) with
  | Ok c => if truthy c then Some c else None
  | Raise _ => None
  end.

(** The state [cached] leaves behind. *)
Definition looked_up (key ttl_type : string) (s : state) : state :=
  snd (cached key ttl_type s).

(** An entry still within its time to live at time [now]. *)
Definition unexpired (ttl_type : string) (now : R) (ent : entry) : Prop :=
  (now - t ent <= TTL_get TTL ttl_type)%R.

(** The answer and the provenance LAYER 2 settles on. *)
Definition fin_choice (env : providers) (sym : string)
  : option financials * option string :=
  match eodhd_data env sym with
  | Some f => (Some f, Some "eodhd")
  | None =>
      (yfinance_data env sym,
       match yfinance_data env sym with Some _ => Some "yfinance" | None => None end)
  end.

(** The requests LAYER 2 sends. *)
Definition fin_requests (env : providers) (sym : string) : list request :=
  (if String.eqb (EODHD_KEY env) "" then [] else [GetEodhd (eodhd_ticker sym)])
  ++ match eodhd_data env sym with
     | Some _ => []
     | None => [YfFinancials (yf_ticker sym)]
     end.

(** The requests one uncached resolution sends. *)
Definition resolve_requests (env : providers) (sym : string) : list request :=
  Get (stock_url (clean_symbol sym)) :: fin_requests env sym.



(* ===================================================================== *)
(** * Properties *)
(* ===================================================================== *)

(** ** Rounding *)

Section Rounding.
Local Open Scope R_scope.

Lemma round_half_even_near (x : R) (k : Z) :
  IZR k - 1 / 2 < x < IZR k + 1 / 2 -> round_half_even x = k.
Proof.
  intros [Hlo Hhi]. unfold round_half_even.
  destruct (Rle_dec (IZR k) x) as [Hle | Hgt].
  - rewrite (Zfloor_eq k x) by lra.
    destruct (Rlt_dec (x - IZR k) (1 / 2)); [reflexivity | lra].
  - assert (Hf : Zfloor x = (k - 1)%Z).
    { apply Zfloor_eq. rewrite minus_IZR. lra. }
    rewrite Hf, minus_IZR.
    destruct (Rlt_dec (x - (IZR k - 1)) (1 / 2)); [lra |].
    destruct (Rlt_dec (1 / 2) (x - (IZR k - 1))); [lia | lra].
Qed.

Lemma round_half_even_IZR (k : Z) : round_half_even (IZR k) = k.
Proof. apply round_half_even_near. lra. Qed.

Lemma round_half_even_tie (k : Z) :
  round_half_even (IZR k + 1 / 2) = if Z.even k then k else (k + 1)%Z.
Proof.
  unfold round_half_even.
  rewrite (Zfloor_eq k) by lra.
  destruct (Rlt_dec (IZR k + 1 / 2 - IZR k) (1 / 2)); [lra |].
  destruct (Rlt_dec (1 / 2) (IZR k + 1 / 2 - IZR k)); [lra | reflexivity].
Qed.

Lemma round_to_near (ndigits : nat) (x : R) (k : Z) :
  IZR k - 1 / 2 < x * 10 ^ ndigits < IZR k + 1 / 2 ->
  round_to ndigits x = IZR k / 10 ^ ndigits.
Proof.
  intros H. unfold round_to. now rewrite (round_half_even_near _ k H).
Qed.

End Rounding.

(** ** The metric calculator *)

Section Cagr.
Local Open Scope R_scope.

Lemma py_index_lookup {A : Type} (l : list A) (i : Z) (a : A) :
  (0 <= i)%Z -> l !! Z.to_nat i = Some a -> py_index l i = Ok a.
Proof.
  intros Hi Hl. unfold py_index.
  pose proof (lookup_lt_Some _ _ _ Hl) as Hlt.
  destruct (Z.ltb_spec i 0); [lia |].
  destruct (Z.leb_spec 0 i); [| lia].
  destruct (Z.ltb_spec i (Z.of_nat (length l))); [| lia].
  simpl. now rewrite Hl.
Qed.

Lemma dict_get_cases (k : string) (kv : dict) :
  (forall dflt, dict_get k kv dflt = dflt) \/
  (exists v, forall dflt, dict_get k kv dflt = v).
Proof.
  induction kv as [| [k' v'] rest IH]; simpl.
  - now left.
  - destruct (String.eqb k' k); [right; now exists v' | exact IH].
Qed.

Lemma absent_falsy (fld : string) (y : dict) :
  dict_get fld y VNone = VNone -> truthy (dict_get fld y (VNum 0)) = false.
Proof.
  intros H. destruct (dict_get_cases fld y) as [Hd | [v Hv]].
  - rewrite Hd. simpl. destruct (Req_dec_T 0 0); [reflexivity | lra].
  - rewrite Hv. rewrite Hv in H. now subst v.
Qed.

Lemma number_read (fld : string) (y : dict) (x : R) :
  dict_get fld y VNone = VNum x -> dict_get fld y (VNum 0) = VNum x.
Proof.
  intros H. destruct (dict_get_cases fld y) as [Hd | [v Hv]].
  - rewrite Hd in H. discriminate.
  - rewrite Hv. now rewrite Hv in H.
Qed.

(** The test [not v or v <= 0] of the calculator. *)
Lemma guard_absent (fld : string) (y : dict) :
  dict_get fld y VNone = VNone ->
  (if negb (truthy (dict_get fld y (VNum 0))) then Ok true
   else py_le (dict_get fld y (VNum 0)) 0) = Ok true.
Proof. intros H. now rewrite (absent_falsy _ _ H). Qed.

Lemma guard_number (x : R) :
  (if negb (truthy (VNum x)) then Ok true else py_le (VNum x) 0)
  = Ok (if Rlt_dec 0 x then false else true).
Proof.
  unfold truthy, py_le, as_num.
  destruct (Req_dec_T x 0), (Rlt_dec 0 x), (Rle_dec x 0);
    simpl; try reflexivity; lra.
Qed.

Lemma calc_cagr_short (arr : list dict) (fld : string) (n : Z) :
  (Z.of_nat (length arr) < n + 1)%Z -> calc_cagr arr fld n = Ok VNone.
Proof.
  intros H. unfold calc_cagr. destruct (Z.ltb_spec (Z.of_nat (length arr)) (n + 1)); [reflexivity | lia].
Qed.

Lemma calc_cagr_unfold (arr : list dict) (fld : string) (n : Z) (y0 yn : dict) :
  (0 <= n)%Z -> arr !! 0%nat = Some y0 -> arr !! Z.to_nat n = Some yn ->
  calc_cagr arr fld n =
    (let a := dict_get fld y0 (VNum 0) in
     let b := dict_get fld yn (VNum 0) in
     nb ← (if negb (truthy b) then Ok true else py_le b 0);
     if nb : bool then Ok VNone
     else
       na ← (if negb (truthy a) then Ok true else py_le a 0);
       if na : bool then Ok VNone
       else
         q ← py_div a b;
         e ← py_div (VNum 1) (VNum (IZR n));
         match as_num q, as_num e with
         | Some qx, Some ex =>
             p ← math_pow qx ex;
             py_round (VNum ((p - 1) * 100)) 1
         | _, _ => Raise TypeError
         end).
Proof.
  intros Hn H0 Hyn. unfold calc_cagr.
  pose proof (lookup_lt_Some _ _ _ Hyn) as Hlt.
  destruct (Z.ltb_spec (Z.of_nat (length arr)) (n + 1)); [lia |].
  rewrite (py_index_lookup arr 0 y0) by (try lia; exact H0).
  rewrite (py_index_lookup arr n yn Hn Hyn). reflexivity.
Qed.

Lemma calc_cagr_undefined (arr : list dict) (fld : string) (n : Z) (y0 yn : dict) :
  (0 <= n)%Z -> arr !! 0%nat = Some y0 -> arr !! Z.to_nat n = Some yn ->
  number_or_absent fld y0 -> number_or_absent fld yn ->
  (number_at fld y0 = None \/ number_at fld yn = None \/
   (exists a, number_at fld y0 = Some a /\ a <= 0) \/
   (exists b, number_at fld yn = Some b /\ b <= 0)) ->
  calc_cagr arr fld n = Ok VNone.
Proof.
  intros Hn H0 Hyn W0 Wn Hbad.
  rewrite (calc_cagr_unfold arr fld n y0 yn Hn H0 Hyn). cbv zeta.
  unfold number_at in Hbad.
  destruct Wn as [Hb | [b Hb]].
  { now rewrite (guard_absent _ _ Hb). }
  rewrite (number_read _ _ _ Hb), guard_number.
  destruct (Rlt_dec 0 b) as [Hbpos | Hbneg]; [| reflexivity]. simpl.
  destruct W0 as [Ha | [a Ha]].
  { now rewrite (guard_absent _ _ Ha). }
  rewrite (number_read _ _ _ Ha), guard_number.
  destruct (Rlt_dec 0 a) as [Hapos | Haneg]; [| reflexivity].
  exfalso. rewrite Ha, Hb in Hbad. simpl in Hbad.
  destruct Hbad as [H | [H | [[x [H Hx]] | [x [H Hx]]]]];
    try discriminate; injection H as <-; lra.
Qed.

Lemma calc_cagr_defined (arr : list dict) (fld : string) (n : Z) (y0 yn : dict)
    (a b : R) :
  (1 <= n)%Z -> arr !! 0%nat = Some y0 -> arr !! Z.to_nat n = Some yn ->
  dict_get fld y0 VNone = VNum a -> dict_get fld yn VNone = VNum b ->
  0 < a -> 0 < b ->
  calc_cagr arr fld n = Ok (VNum (cagr_value a b n)).
Proof.
  intros Hn H0 Hyn Ha Hb Hapos Hbpos.
  rewrite (calc_cagr_unfold arr fld n y0 yn) by (lia || assumption). cbv zeta.
  rewrite (number_read _ _ _ Ha), (number_read _ _ _ Hb), !guard_number.
  destruct (Rlt_dec 0 b); [| lra]. simpl.
  destruct (Rlt_dec 0 a); [| lra]. simpl.
  unfold py_div. simpl.
  destruct (Req_dec_T b 0); [lra |]. simpl.
  assert (Hnz : IZR n <> 0) by (apply not_0_IZR; lia).
  destruct (Req_dec_T (IZR n) 0); [contradiction |]. simpl.
  unfold math_pow.
  assert (Hq : 0 < a / b) by (apply Rdiv_lt_0_compat; assumption).
  destruct (Rlt_dec 0 (a / b)); [| contradiction]. reflexivity.
Qed.
End Cagr.

(** ** Small inputs *)

Example replace_suffix : replace ".NS" "" "TCS.NS" = "TCS".
Proof. reflexivity. Qed.

Example replace_all_occurrences : replace ".NS" "" "A.NS.NSB.NS" = "AB".
Proof. reflexivity. Qed.

Example replace_no_overlap : replace "aa" "b" "aaa" = "ba".
Proof. reflexivity. Qed.

Example normalize_lower_bo : normalize "reliance.bo" = "RELIANCE".
Proof. reflexivity. Qed.

Example normalize_second_pass : normalize "A.B.NSO" = "A".
Proof. reflexivity. Qed.

Example strip_both_ends : strip "  tcs " = "tcs".
Proof. reflexivity. Qed.

Example lower_mixed : lower "TcS-9" = "tcs-9".
Proof. reflexivity. Qed.

Example sorted_three : sorted ["TCS"; "INFY"; "HDFC"] = ["HDFC"; "INFY"; "TCS"].
Proof. vm_compute. reflexivity. Qed.

Example batch_key_two : batch_key ["TCS"; "INFY"] = "batch:INFY_TCS".
Proof. vm_compute. reflexivity. Qed.

Example batch_url_two :
  batch_url ["TCS.NS"; "INFY.BO"]
  = "https://military-jobye-haiqstudios-14f59639.koyeb.app/stock/list?symbols=TCS,INFY&res=num".
Proof. reflexivity. Qed.

Example index_from_the_end : py_index [10; 20; 30] (-1) = Ok 30.
Proof. reflexivity. Qed.

Example index_out_of_range : py_index [10; 20; 30] 3 = Raise IndexError.
Proof. reflexivity. Qed.

(** A window of 0 years reaches [1 / n]. *)
Example cagr_window_zero :
  calc_cagr [[("rev", VNum 200)]] "rev" 0 = Raise ZeroDivisionError.
Proof.
  rewrite (calc_cagr_unfold _ "rev" 0 [("rev", VNum 200)] [("rev", VNum 200)])
    by (lia || reflexivity).
  cbv zeta. cbn [dict_get String.eqb Ascii.eqb Bool.eqb].
  rewrite !guard_number.
  destruct (Rlt_dec 0 200); [| lra]. cbn [mbind res_bind].
  unfold py_div. cbn [as_num].
  destruct (Req_dec_T 200 0); [lra |]. cbn [mbind res_bind].
  destruct (Req_dec_T 0 0); [reflexivity | contradiction].
Qed.

(** A query shorter than 2 characters is answered without any lookup or
    request. *)
Example search_short_query (env : providers) (s : state) :
  search env " a " s = (Ok (VList []), s).
Proof. reflexivity. Qed.

Example resolve_requests_without_key :
  resolve_requests all_down "TCS" = [Get (stock_url "TCS"); YfFinancials "TCS.NS"].
Proof. reflexivity. Qed.

Example resolve_requests_with_key :
  resolve_requests (all_up "demo") "TCS"
  = [Get (stock_url "TCS"); GetEodhd "TCS.NSE"].
Proof. reflexivity. Qed.

(** ** The merge *)

Section Merge.
Local Open Scope R_scope.

Lemma lookup_map {A B : Type} (f : A -> B) (l : list A) (i : nat) :
  map f l !! i = f <$> l !! i.
Proof.
  revert i. induction l as [| a l IH]; intros [| i]; simpl; try reflexivity.
  apply IH.
Qed.

Lemma calc_cagr_statements (get : statement -> R) (fld : string)
    (ys : list statement) (n : Z) :
  (1 <= n)%Z ->
  (forall y, dict_get fld (statement_dict y) VNone = VNum (get y)) ->
  calc_cagr (map statement_dict ys) fld n = Ok (cagr_of get ys n).
Proof.
  intros Hn Hget. unfold cagr_of.
  destruct (Z_lt_ge_dec (Z.of_nat (length ys)) (n + 1)) as [Hshort | Hlong].
  - rewrite calc_cagr_short by (rewrite length_map; exact Hshort).
    rewrite (lookup_ge_None_2 ys (Z.to_nat n)) by lia.
    now destruct (ys !! 0%nat).
  - destruct (lookup_lt_is_Some_2 ys 0%nat) as [y0 H0]; [lia |].
    destruct (lookup_lt_is_Some_2 ys (Z.to_nat n)) as [yn Hyn]; [lia |].
    rewrite H0, Hyn.
    assert (M0 : map statement_dict ys !! 0%nat = Some (statement_dict y0))
      by now rewrite lookup_map, H0.
    assert (Mn : map statement_dict ys !! Z.to_nat n = Some (statement_dict yn))
      by now rewrite lookup_map, Hyn.
    destruct (Rlt_dec 0 (get y0)) as [Ha | Ha];
      [destruct (Rlt_dec 0 (get yn)) as [Hb | Hb] |].
    + now apply (calc_cagr_defined _ fld n _ _ (get y0) (get yn) Hn M0 Mn).
    + apply (calc_cagr_undefined _ fld n _ _ ltac:(lia) M0 Mn).
      * right. eexists. apply Hget.
      * right. eexists. apply Hget.
      * right. right. right. exists (get yn). unfold number_at.
        rewrite Hget. split; [reflexivity | lra].
    + apply (calc_cagr_undefined _ fld n _ _ ltac:(lia) M0 Mn).
      * right. eexists. apply Hget.
      * right. eexists. apply Hget.
      * right. right. left. exists (get y0). unfold number_at.
        rewrite Hget. split; [reflexivity | lra].
Qed.

Lemma py_gt_num (v : pyval) (x c : R) :
  as_num v = Some x -> py_gt v c = Ok (if Rlt_dec c x then true else false).
Proof. intros H. unfold py_gt. now rewrite H. Qed.

Lemma round_to_zero (k : nat) : round_to k 0 = 0.
Proof.
  unfold round_to. rewrite Rmult_0_l.
  change 0 with (IZR 0) at 1. rewrite round_half_even_IZR. lra.
Qed.

Lemma merge_eval (sym : string) (isma : option quote) (fin : option financials)
    (src : option string) (p m : R) (ys : list statement) :
  as_num (price_of isma) = Some p ->
  as_num (raw_cap_of isma) = Some m ->
  statements_of fin ys ->
  fullstock_merge sym isma fin src = Ok (merged sym isma p m ys src).
Proof.
  intros Hp Hm Hys. unfold fullstock_merge, merged.
  change (match isma with Some q => cmp q | None => VNum 0 end) with (price_of isma).
  change (match isma with Some q => mcap_raw q | None => VNum 0 end)
    with (raw_cap_of isma).
  assert (Hyears : match fin with Some f => years f | None => [] end
                   = map statement_dict ys).
  { destruct fin; simpl in Hys; [exact Hys | now subst ys]. }
  rewrite Hyears. clear Hyears Hys.
  rewrite (py_gt_num _ _ _ Hm). cbn [mbind res_bind].
  assert (H1 : exists v1,
             (if (if Rlt_dec 1e6 m then true else false)
              then py_div (raw_cap_of isma) (VNum 1e7)
              else Ok (raw_cap_of isma)) = Ok v1
             /\ as_num v1 = Some (crores m)).
  { unfold crores. destruct (Rlt_dec 1e6 m).
    - unfold py_div. rewrite Hm. simpl.
      destruct (Req_dec_T 1e7 0); [lra |]. eexists. split; reflexivity.
    - exists (raw_cap_of isma). split; [reflexivity | exact Hm]. }
  destruct H1 as (v1 & -> & Hv1). cbn [mbind res_bind].
  rewrite (py_gt_num _ _ _ Hp). cbn [mbind res_bind].
  assert (H2 : exists v2,
             as_num v2 = Some (derived_shares (crores m) p) /\
             forall K : pyval -> res pyval,
               ((if (if Rlt_dec 0 p then true else false)
                 then py_gt v1 0 else Ok false)
                ≫= λ valued : bool,
                     (if valued then py_div v1 (price_of isma) else Ok (VNum 0))
                     ≫= K)
               = K v2).
  { unfold derived_shares. destruct (Rlt_dec 0 p).
    - rewrite (py_gt_num _ _ _ Hv1). cbn [mbind res_bind].
      destruct (Rlt_dec 0 (crores m)).
      + unfold py_div. rewrite Hv1, Hp.
        destruct (Req_dec_T p 0); [lra |].
        exists (VNum (crores m / p)). split; [reflexivity | now intros K].
      + exists (VNum 0). split; [reflexivity | now intros K].
    - cbn [mbind res_bind].
      exists (VNum 0). split; [reflexivity | now intros K]. }
  destruct H2 as (v2 & Hv2 & ->).
  assert (Hrev : match map statement_dict ys with
                 | [] => Ok (VNum 0)
                 | y0 :: _ => py_getitem y0 "rev"
                 end
                 = Ok match ys with y0 :: _ => VNum (rev y0) | [] => VNum 0 end)
    by now destruct ys.
  assert (Hpat : match map statement_dict ys with
                 | [] => Ok (VNum 0)
                 | y0 :: _ => py_getitem y0 "pat"
                 end
                 = Ok match ys with y0 :: _ => VNum (pat y0) | [] => VNum 0 end)
    by now destruct ys.
  rewrite Hrev, Hpat. cbn [mbind res_bind].
  unfold py_round. rewrite Hv1, Hv2. cbn [mbind res_bind].
  rewrite !(calc_cagr_statements rev "rev") by (reflexivity || lia).
  cbn [mbind res_bind].
  rewrite !(calc_cagr_statements pat "pat") by (reflexivity || lia).
  reflexivity.
Qed.

End Merge.

(** ** The cache *)

Section Cache.
Local Open Scope R_scope.

Lemma issue_app (env : providers) (rs1 rs2 : list request) (s : state) :
  issue env rs2 (issue env rs1 s) = issue env (rs1 ++ rs2) s.
Proof. unfold issue. simpl. now rewrite fold_left_app, app_assoc. Qed.

Lemma perform_issue (env : providers) (r : request) (s : state) :
  perform env r s = (Ok tt, issue env [r] s).
Proof. reflexivity. Qed.

Lemma cached_absent (key ty : string) (s : state) :
  cache s !! key = None -> cached key ty s = (Ok VNone, s).
Proof. intros H. unfold cached. now rewrite H. Qed.

Lemma cached_expired (key ty : string) (s : state) (ent : entry) :
  cache s !! key = Some ent -> ~ unexpired ty (clock s) ent ->
  cached key ty s = (Ok VNone, evict key s).
Proof.
  intros H Hx. unfold cached, unexpired in *. rewrite H.
  destruct (Rlt_dec (TTL_get TTL ty) (clock s - t ent)); [reflexivity | lra].
Qed.

Lemma cached_fresh (key ty : string) (s : state) (ent : entry) :
  cache s !! key = Some ent -> unexpired ty (clock s) ent ->
  cached key ty s = (Ok (d ent), s).
Proof.
  intros H Hx. unfold cached, unexpired in *. rewrite H.
  destruct (Rlt_dec (TTL_get TTL ty) (clock s - t ent)); [lra | reflexivity].
Qed.

Lemma served_fresh (key ty : string) (s : state) (ent : entry) :
  cache s !! key = Some ent -> unexpired ty (clock s) ent ->
  truthy (d ent) = true ->
  served key ty s = Some (d ent) /\ looked_up key ty s = s.
Proof.
  intros H Hx Ht. unfold served, looked_up.
  rewrite (cached_fresh _ _ _ _ H Hx). simpl. now rewrite Ht.
Qed.

Lemma served_falsy (key ty : string) (s : state) (ent : entry) :
  cache s !! key = Some ent -> unexpired ty (clock s) ent ->
  truthy (d ent) = false ->
  served key ty s = None /\ looked_up key ty s = s.
Proof.
  intros H Hx Ht. unfold served, looked_up.
  rewrite (cached_fresh _ _ _ _ H Hx). simpl. now rewrite Ht.
Qed.

Lemma served_expired (key ty : string) (s : state) (ent : entry) :
  cache s !! key = Some ent -> ~ unexpired ty (clock s) ent ->
  served key ty s = None /\ looked_up key ty s = evict key s.
Proof.
  intros H Hx. unfold served, looked_up.
  now rewrite (cached_expired _ _ _ _ H Hx).
Qed.

Lemma served_absent (key ty : string) (s : state) :
  cache s !! key = None ->
  served key ty s = None /\ looked_up key ty s = s.
Proof.
  intros H. unfold served, looked_up. now rewrite (cached_absent _ _ _ H).
Qed.

Lemma served_inv (key ty : string) (s : state) (c : pyval) :
  served key ty s = Some c ->
  exists ent, cache s !! key = Some ent /\ d ent = c /\
              unexpired ty (clock s) ent /\ truthy c = true /\
              cached key ty s = (Ok c, s).
Proof.
  unfold served, cached, unexpired.
  destruct (cache s !! key) as [ent |] eqn:E; [| discriminate].
  destruct (Rlt_dec (TTL_get TTL ty) (clock s - t ent)); [discriminate |].
  simpl. destruct (truthy (d ent)) eqn:Ht; [| discriminate].
  intros [= <-]. exists ent. repeat split; try reflexivity; try assumption. lra.
Qed.

Lemma served_None_cached (key ty : string) (s : state) :
  served key ty s = None ->
  exists c, cached key ty s = (Ok c, looked_up key ty s) /\ truthy c = false.
Proof.
  unfold served, looked_up, cached.
  destruct (cache s !! key) as [ent |]; [| now exists VNone].
  destruct (Rlt_dec _ _); [now exists VNone |]. simpl.
  destruct (truthy (d ent)) eqn:Ht; [discriminate |]. now exists (d ent).
Qed.

Lemma looked_up_calls (key ty : string) (s : state) :
  calls (looked_up key ty s) = calls s /\ clock (looked_up key ty s) = clock s.
Proof.
  unfold looked_up, cached.
  destruct (cache s !! key) as [ent |]; [| now split].
  now destruct (Rlt_dec _ _).
Qed.

End Cache.

Section Resolve.
Variable env : providers.

Lemma fetch_financials_run (sym : string) (s : state) :
  fetch_financials env sym s
  = (Ok (fin_choice env sym), issue env (fin_requests env sym) s).
Proof.
  unfold fetch_financials, fetch_eodhd_financials, fetch_yfinance_financials,
    fin_choice, fin_requests, eodhd_data.
  unfold mbind, mret, M_bind, M_ret, perform, issue.
  destruct (String.eqb (EODHD_KEY env) "") eqn:Hk; simpl.
  - reflexivity.
  - destruct (eodhd_years env (eodhd_ticker sym)); simpl.
    + reflexivity.
    + now rewrite <- app_assoc.
Qed.

Lemma fullstock_hit (symbol : string) (s : state) (c : pyval) :
  served (full_key (normalize symbol)) "quote" s = Some c ->
  fullstock env symbol s = (Ok c, s).
Proof.
  intros H. destruct (served_inv _ _ _ _ H) as (ent & _ & _ & _ & Ht & Hc).
  unfold fullstock. cbv zeta. unfold mbind at 1. unfold M_bind at 1.
  rewrite Hc, Ht. reflexivity.
Qed.

Lemma fullstock_miss (symbol : string) (s : state) :
  let sym := normalize symbol in
  let ck := full_key sym in
  let s1 := issue env (resolve_requests env sym) (looked_up ck "quote" s) in
  served ck "quote" s = None ->
  fullstock env symbol s =
    match fullstock_merge sym (isma_data env sym)
            (fst (fin_choice env sym)) (snd (fin_choice env sym)) with
    | Ok r => (Ok r, store ck r s1)
    | Raise e => (Raise e, s1)
    end.
Proof.
  intros sym ck s1 H.
  destruct (served_None_cached _ _ _ H) as (c & Hc & Ht).
  unfold fullstock. cbv zeta. unfold mbind at 1. unfold M_bind at 1.
  fold sym. fold ck. rewrite Hc, Ht.
  unfold fetch_isma. unfold mbind, M_bind, mret, M_ret, lift.
  rewrite perform_issue, fetch_financials_run, issue_app.
  destruct (fin_choice env sym) as [fin src]. simpl.
  destruct (fullstock_merge sym (isma_data env sym) fin src); reflexivity.
Qed.
End Resolve.

Section MergeInversion.
Variable env : providers.

Lemma merge_Ok_numeric (sym : string) (isma : option quote)
    (fin : option financials) (src : option string) (r : pyval) :
  fullstock_merge sym isma fin src = Ok r ->
  exists p m, as_num (price_of isma) = Some p /\ as_num (raw_cap_of isma) = Some m.
Proof.
  unfold fullstock_merge.
  change (match isma with Some q => cmp q | None => VNum 0 end) with (price_of isma).
  change (match isma with Some q => mcap_raw q | None => VNum 0 end)
    with (raw_cap_of isma).
  assert (Hraise : forall v c, as_num v = None -> py_gt v c = Raise TypeError).
  { intros v c H. unfold py_gt. now rewrite H. }
  destruct (as_num (raw_cap_of isma)) as [m |] eqn:Hm.
  2: { rewrite (Hraise _ _ Hm). cbn [mbind res_bind]. discriminate. }
  rewrite (py_gt_num _ _ _ Hm). cbn [mbind res_bind].
  destruct (if (if Rlt_dec 1e6 m then true else false)
            then py_div (raw_cap_of isma) (VNum 1e7)
            else Ok (raw_cap_of isma)) as [v1 | e];
    [| cbn [mbind res_bind]; discriminate].
  cbn [mbind res_bind].
  destruct (as_num (price_of isma)) as [p |] eqn:Hp.
  2: { rewrite (Hraise _ _ Hp). cbn [mbind res_bind]. discriminate. }
  intros _. now exists p, m.
Qed.

Lemma fin_choice_statements (sym : string) :
  exists ys, statements_of (fst (fin_choice env sym)) ys.
Proof.
  unfold fin_choice, eodhd_data, yfinance_data.
  destruct (String.eqb (EODHD_KEY env) "").
  - destruct (yf_financials env (yf_ticker sym)) as [[ys sh] |]; simpl.
    + now exists ys.
    + now exists [].
  - destruct (eodhd_years env (eodhd_ticker sym)) as [ys |]; simpl.
    + now exists ys.
    + destruct (yf_financials env (yf_ticker sym)) as [[ys sh] |]; simpl.
      * now exists ys.
      * now exists [].
Qed.

Lemma merge_Ok_merged (sym : string) (isma : option quote)
    (fin : option financials) (src : option string) (r : pyval)
    (ys : list statement) :
  statements_of fin ys ->
  fullstock_merge sym isma fin src = Ok r ->
  exists p m, as_num (price_of isma) = Some p /\ as_num (raw_cap_of isma) = Some m
              /\ r = merged sym isma p m ys src.
Proof.
  intros Hys Hr.
  destruct (merge_Ok_numeric _ _ _ _ _ Hr) as (p & m & Hp & Hm).
  exists p, m. repeat split; try assumption.
  rewrite (merge_eval sym isma fin src p m ys Hp Hm Hys) in Hr. congruence.
Qed.
End MergeInversion.

(** ** Resolution never fails *)

Section NeverFails.
Local Open Scope R_scope.

Lemma crores_0 : crores 0 = 0.
Proof. unfold crores. destruct (Rlt_dec 1e6 0); lra. Qed.

Lemma derived_shares_unpriced (c : R) : derived_shares c 0 = 0.
Proof. unfold derived_shares. destruct (Rlt_dec 0 0); [lra | reflexivity]. Qed.

Lemma merged_nothing (sym : string) :
  merged sym None 0 0 [] None = empty_record sym.
Proof.
  unfold merged, empty_record, result_dict.
  rewrite crores_0, derived_shares_unpriced, !round_to_zero. reflexivity.
Qed.

Lemma numeric_inputs (isma : option quote) :
  (forall q, isma = Some q -> numeric_quote q) ->
  exists p m, as_num (price_of isma) = Some p /\ as_num (raw_cap_of isma) = Some m.
Proof.
  intros H. destruct isma as [q |]; simpl.
  - destruct (H q eq_refl) as [[p Hp] [m Hm]]. now exists p, m.
  - now exists 0, 0.
Qed.

Lemma fullstock_total (env : providers) (symbol : string) (s : state) :
  (forall q, isma_data env (normalize symbol) = Some q -> numeric_quote q) ->
  exists r s',
    fullstock env symbol s = (Ok r, s') /\
    (served (full_key (normalize symbol)) "quote" s = None ->
     exists p m ys src,
       r = merged (normalize symbol) (isma_data env (normalize symbol)) p m ys src).
Proof.
  intros Hq.
  destruct (served (full_key (normalize symbol)) "quote" s) as [c |] eqn:Hs.
  - rewrite (fullstock_hit env symbol s c Hs).
    eexists. eexists. split; [reflexivity | discriminate].
  - rewrite (fullstock_miss env symbol s Hs).
    destruct (numeric_inputs _ Hq) as (p & m & Hp & Hm).
    destruct (fin_choice_statements env (normalize symbol)) as [ys Hys].
    rewrite (merge_eval _ _ _ _ p m ys Hp Hm Hys).
    eexists. eexists. split; [reflexivity |]. intros _.
    now exists p, m, ys, (snd (fin_choice env (normalize symbol))).
Qed.

Lemma fullstock_no_data (env : providers) (symbol : string) (s : state) :
  served (full_key (normalize symbol)) "quote" s = None ->
  isma_data env (normalize symbol) = None ->
  eodhd_data env (normalize symbol) = None ->
  yfinance_data env (normalize symbol) = None ->
  fst (fullstock env symbol s) = Ok (empty_record (normalize symbol)).
Proof.
  intros Hs Hi He Hy.
  rewrite (fullstock_miss env symbol s Hs).
  unfold fin_choice. rewrite Hi, He, Hy. simpl fst. simpl snd.
  rewrite (merge_eval _ None None None 0 0 []) by reflexivity.
  now rewrite merged_nothing.
Qed.

(** Resolving the full stock record yields a payload and no exception,
    whichever providers answer and whichever fail, as long as a realtime
    answer carries a numeric price and market cap; a resolution the cache
    does not serve yields a merged record.  When the cache does not serve
    the symbol and every provider returns no data, the payload is the
    all-zero record, with provenance realtime "none", financials "none" and
    0 years available. *)
Theorem fullstock_answers :
  (forall (env : providers) (symbol : string) (s : state),
     (forall q, isma_data env (normalize symbol) = Some q -> numeric_quote q) ->
     exists r s',
       fullstock env symbol s = (Ok r, s') /\
       (served (full_key (normalize symbol)) "quote" s = None ->
        exists p m ys src,
          r = merged (normalize symbol) (isma_data env (normalize symbol))
                p m ys src)) /\
  (forall (env : providers) (symbol : string) (s : state),
     served (full_key (normalize symbol)) "quote" s = None ->
     isma_data env (normalize symbol) = None ->
     eodhd_data env (normalize symbol) = None ->
     yfinance_data env (normalize symbol) = None ->
     fst (fullstock env symbol s) = Ok (empty_record (normalize symbol))) /\
  (forall sym : string,
     field "_source" (empty_record sym)
     = VDict [("realtime", VStr "none"); ("financials", VStr "none");
              ("years_available", VNum 0)]).
Proof.
  split; [exact fullstock_total |]. split; [exact fullstock_no_data | reflexivity].
Qed.

(** [fullstock_answers] at sample inputs. *)
Lemma fullstock_answers_example :
  (exists r s', fullstock (all_up "demo") "tcs.ns" cold = (Ok r, s')) /\
  fst (fullstock all_down "tcs.ns" cold) = Ok (empty_record "TCS").
Proof.
  destruct fullstock_answers as (Htotal & Hnone & _). split.
  - destruct (Htotal (all_up "demo") "tcs.ns" cold) as (r & s' & Hrun & _).
    + intros q Hq. vm_compute in Hq. injection Hq as <-.
      split; eexists; reflexivity.
    + now exists r, s'.
  - apply (Hnone all_down "tcs.ns" cold); reflexivity.
Defined.

Lemma merge_raises_on_null_cap (sym : string) (q : quote)
    (fin : option financials) (src : option string) :
  mcap_raw q = VNone -> fullstock_merge sym (Some q) fin src = Raise TypeError.
Proof. intros H. unfold fullstock_merge, py_gt. now rewrite H. Qed.

(** C1.  The realtime provider answers 200 with a success payload whose
    [market_cap] is null (both financials providers have no data): the
    adapter passes the null on, the comparison [mcap_raw > 1e6] of the merge
    raises [TypeError], nothing catches it and nothing is cached; the caller
    gets an error where the claim promises a record. *)
Theorem null_market_cap_is_an_error :
  (exists q, isma_data (answering null_cap_answer) (normalize "TCS") = Some q /\
             mcap_raw q = VNone) /\
  fullstock (answering null_cap_answer) "TCS" cold
  = (Raise TypeError,
     issue (answering null_cap_answer)
       [Get (stock_url "TCS"); YfFinancials "TCS.NS"] cold).
Proof.
  split.
  - eexists. split; reflexivity.
  - rewrite (fullstock_miss _ "TCS" cold
               (proj1 (served_absent _ _ cold (lookup_empty _)))).
    set (isma := isma_data _ _). cbv in isma. subst isma.
    rewrite merge_raises_on_null_cap by reflexivity. reflexivity.
Qed.

End NeverFails.

(** ** Fallback order of the financials providers *)

Section Fallback.
Variable env : providers.

Lemma fullstock_miss_calls (symbol : string) (s : state) :
served (full_key (normalize symbol)) "quote" s = None ->
calls (snd (fullstock env symbol s))
= calls s ++ resolve_requests env (normalize symbol).
Proof.
intros Hs. rewrite (fullstock_miss env symbol s Hs).
destruct (fullstock_merge _ _ _ _); simpl;
  now rewrite (proj1 (looked_up_calls _ _ s)).
Qed.

Lemma fullstock_miss_merge (symbol : string) (s : state) (r : pyval) :
served (full_key (normalize symbol)) "quote" s = None ->
fst (fullstock env symbol s) = Ok r ->
fullstock_merge (normalize symbol) (isma_data env (normalize symbol))
  (fst (fin_choice env (normalize symbol)))
  (snd (fin_choice env (normalize symbol))) = Ok r.
Proof.
intros Hs. rewrite (fullstock_miss env symbol s Hs).
destruct (fullstock_merge _ _ _ _); simpl; congruence.
Qed.




Lemma yfinance_data_statements (sym : string) (f : financials) :
yfinance_data env sym = Some f -> exists ys, years f = map statement_dict ys.
Proof.
unfold yfinance_data.
destruct (yf_financials env (yf_ticker sym)) as [[ys sh] |]; [| discriminate].
intros [= <-]. now exists ys.
Qed.

End Fallback.



(** ** Cache idempotence and expiry *)

Section Idempotence.
Local Open Scope R_scope.

Lemma merge_Ok_truthy (env : providers) (sym : string) (r : pyval) :
fullstock_merge sym (isma_data env sym) (fst (fin_choice env sym))
  (snd (fin_choice env sym)) = Ok r ->
truthy r = true.
Proof.
intros Hr. destruct (fin_choice_statements env sym) as [ys Hys].
destruct (merge_Ok_merged _ _ _ _ _ ys Hys Hr) as (p & m & _ & _ & ->).
reflexivity.
Qed.

Lemma quote_ttl : TTL_get TTL "quote" = 300.
Proof. reflexivity. Qed.
End Idempotence.

(** C5.  After a resolution that returned [r1], the cache holds [r1] for the
    symbol (time-stamped with the end of that resolution when it went
    upstream); a second resolution of the same symbol no later than 300
    seconds after the time stamp returns [r1] itself, sends no request and
    leaves the cache as it is, whatever the providers would answer.  Once
    more than 300 seconds have passed since the time stamp, the next
    resolution goes upstream again, starting with the realtime request. *)
Theorem cache_idempotence_and_expiry :
  (forall (env1 env2 : providers) (symbol symbol' : string) (s s1 : state)
          (r1 : pyval),
     normalize symbol' = normalize symbol ->
     fullstock env1 symbol s = (Ok r1, s1) ->
     exists ent,
       cache s1 !! full_key (normalize symbol) = Some ent /\ d ent = r1 /\
       (served (full_key (normalize symbol)) "quote" s = None -> t ent = clock s1) /\
       forall s2, cache s2 = cache s1 -> (clock s2 - t ent <= 300)%R ->
                  fullstock env2 symbol' s2 = (Ok r1, s2)) /\
  (forall (env : providers) (symbol : string) (s : state) (ent : entry),
     cache s !! full_key (normalize symbol) = Some ent ->
     (300 < clock s - t ent)%R ->
     calls (snd (fullstock env symbol s))
     = calls s ++ Get (stock_url (clean_symbol (normalize symbol)))
                  :: fin_requests env (normalize symbol)).
Proof.
  split.
  - intros env1 env2 symbol symbol' s s1 r1 Hsame Hrun.
    assert (Hagain : forall ent s2,
               cache s1 !! full_key (normalize symbol) = Some ent ->
               d ent = r1 -> truthy r1 = true ->
               cache s2 = cache s1 -> (clock s2 - t ent <= 300)%R ->
               fullstock env2 symbol' s2 = (Ok r1, s2)).
    { intros ent s2 Hent Hd Ht Hc Hfresh. apply fullstock_hit.
      rewrite Hsame. rewrite <- Hc in Hent. rewrite <- Hd in Ht.
      rewrite <- Hd. now apply served_fresh. }
    destruct (served (full_key (normalize symbol)) "quote" s) as [c |] eqn:Hs.
    + rewrite (fullstock_hit env1 symbol s c Hs) in Hrun.
      injection Hrun as -> ->.
      destruct (served_inv _ _ _ _ Hs) as (ent & Hent & Hd & _ & Ht & _).
      exists ent. repeat split; try assumption; [discriminate |].
      intros s2. now apply Hagain.
    + rewrite (fullstock_miss env1 symbol s Hs) in Hrun.
      destruct (fullstock_merge _ _ _ _) as [r | e] eqn:Hm; [| discriminate].
      injection Hrun as -> <-.
      eexists. split; [apply lookup_insert_eq |].
      split; [reflexivity |]. split; [reflexivity |].
      intros s2. apply Hagain; [apply lookup_insert_eq | reflexivity |].
      exact (merge_Ok_truthy env1 _ _ Hm).
  - intros env symbol s ent Hent Hold.
    apply fullstock_miss_calls.
    apply (served_expired _ _ _ ent Hent).
    unfold unexpired. rewrite quote_ttl. lra.
Qed.

(** [cache_idempotence_and_expiry] at sample inputs. *)
Lemma cache_idempotence_and_expiry_witness :
  (exists ent,
     cache (snd (fullstock all_down "tcs.ns" cold)) !! full_key (normalize "tcs.ns")
     = Some ent /\
     d ent = empty_record "TCS" /\
     (served (full_key (normalize "tcs.ns")) "quote" cold = None ->
      t ent = clock (snd (fullstock all_down "tcs.ns" cold))) /\
     forall s2,
       cache s2 = cache (snd (fullstock all_down "tcs.ns" cold)) ->
       (clock s2 - t ent <= 300)%R ->
       fullstock (all_up "demo") "TCS" s2 = (Ok (empty_record "TCS"), s2)) /\
  calls (snd (fullstock all_down "tcs.ns"
                (holding (full_key (normalize "tcs.ns")) (empty_record "TCS") 301)))
  = calls (holding (full_key (normalize "tcs.ns")) (empty_record "TCS") 301)
    ++ Get (stock_url (clean_symbol (normalize "tcs.ns")))
       :: fin_requests all_down (normalize "tcs.ns").
Proof.
  destruct cache_idempotence_and_expiry as [Hidem Hexp]. split.
  - apply (Hidem all_down (all_up "demo") "tcs.ns" "TCS" cold).
    + reflexivity.
    + rewrite (surjective_pairing (fullstock all_down "tcs.ns" cold)).
      f_equal. apply (fullstock_no_data all_down "tcs.ns" cold); reflexivity.
  - apply (Hexp all_down "tcs.ns" _ {| d := empty_record "TCS"; t := 0 |}).
    + apply lookup_singleton_eq.
    + simpl. lra.
Defined.

(** ** Symbol normalisation *)

Section Normalize.

Lemma upper_ascii_dot (c : ascii) :
Ascii.eqb (upper_ascii c) "." = Ascii.eqb c ".".
Proof.
destruct c as [b0 b1 b2 b3 b4 b5 b6 b7].
destruct b0, b1, b2, b3, b4, b5, b6, b7; reflexivity.
Qed.

Lemma upper_has_dot (s : string) : has_dot (upper s) = has_dot s.
Proof.
unfold upper. induction s as [| c s IH]; simpl; [reflexivity |].
now rewrite upper_ascii_dot, IH.
Qed.

Lemma upper_app (s1 s2 : string) : upper (s1 +:+ s2) = upper s1 +:+ upper s2.
Proof.
unfold upper. induction s1 as [| c s1 IH]; [reflexivity |].
change (String c s1 +:+ s2) with (String c (s1 +:+ s2)).
cbn [map_string]. now rewrite IH.
Qed.

Lemma prefix_dot (old' : string) (c : ascii) (s : string) :
Ascii.eqb c "." = false -> String.prefix (String "." old') (String c s) = false.
Proof.
intros H. cbn [String.prefix].
destruct (ascii_dec "." c) as [<- | _]; [discriminate | reflexivity].
Qed.

Lemma has_dot_cons (c : ascii) (s : string) :
has_dot (String c s) = false -> Ascii.eqb c "." = false /\ has_dot s = false.
Proof. simpl. now intros [? ?]%orb_false_iff. Qed.

Lemma replace_no_dot (old' new s : string) :
has_dot s = false -> replace (String "." old') new s = s.
Proof.
unfold replace. induction s as [| c s IH]; [reflexivity |].
intros [Hc Hs]%has_dot_cons.
cbn [replace_from]. rewrite (prefix_dot old' c s Hc). now rewrite IH.
Qed.

Lemma replace_dot_suffix (old' suffix : string) (u : string) :
has_dot u = false ->
replace (String "." old') "" (u +:+ suffix)
= u +:+ replace (String "." old') "" suffix.
Proof.
unfold replace. induction u as [| c u IH]; [reflexivity |].
intros [Hc Hu]%has_dot_cons.
change (String c u +:+ suffix) with (String c (u +:+ suffix)).
cbn [replace_from]. rewrite (prefix_dot old' c _ Hc).
now rewrite IH.
Qed.

Lemma append_empty (s : string) : s +:+ "" = s.
Proof.
induction s as [| c s IH]; [reflexivity |].
change (String c s +:+ "") with (String c (s +:+ "")). now rewrite IH.
Qed.

Lemma normalize_plain (base : string) :
has_dot base = false -> normalize base = upper base.
Proof.
intros H. unfold normalize, clean_symbol.
rewrite !replace_no_dot; [reflexivity | | ]; now rewrite ?replace_no_dot, upper_has_dot by now rewrite upper_has_dot.
Qed.

Lemma normalize_suffixed (base suffix : string) :
has_dot base = false ->
upper suffix = ".NS" \/ upper suffix = ".BO" ->
normalize (base +:+ suffix) = upper base.
Proof.
intros H Hsuf. unfold normalize, clean_symbol.
assert (Hu : has_dot (upper base) = false) by now rewrite upper_has_dot.
rewrite upper_app.
destruct Hsuf as [-> | ->].
- rewrite (replace_dot_suffix "NS" ".NS" _ Hu).
  change (replace ".NS" "" ".NS") with "". rewrite append_empty.
  now apply replace_no_dot.
- rewrite (replace_dot_suffix "NS" ".BO" _ Hu).
  change (replace ".NS" "" ".BO") with ".BO".
  rewrite (replace_dot_suffix "BO" ".BO" _ Hu).
  change (replace ".BO" "" ".BO") with "". apply append_empty.
Qed.
End Normalize.

(** ** Normalised symbol in record and key *)

(** C8 (as stated, refuted).  The request [a.nsx] is answered with the record
    of [AX]: the [.NS] inside the uppercased symbol is removed although it is
    not at its end, where removing trailing suffixes only would leave
    [A.NSX]. *)
Lemma inner_suffix_removed :
  fst (fullstock all_down "a.nsx" cold) = Ok (empty_record "AX") /\
  field "sym" (empty_record "AX") = VStr "AX" /\
  normalize_trailing "a.nsx" = "A.NSX".
Proof.
  split; [| split; reflexivity].
  apply (fullstock_no_data all_down "a.nsx" cold); reflexivity.
Qed.

(** C8 (amended).  The symbol is normalised by uppercasing it and then
    removing every occurrence of [.NS] and, after that, of [.BO], wherever it
    stands; for a ticker without a dot followed by nothing, [.NS] or [.BO] (in
    any case) this leaves the uppercased ticker.  In a resolution the cache
    does not serve, the normalised form is the record's [sym] field and the
    record is stored under [full:<normalised form>], the key every resolution
    looks up. *)
Theorem sym_and_key_normalized :
  (forall symbol : string,
     normalize symbol = replace ".BO" "" (replace ".NS" "" (upper symbol))) /\
  (forall (env : providers) (symbol : string) (s s' : state) (r : pyval),
     served (full_key (normalize symbol)) "quote" s = None ->
     fullstock env symbol s = (Ok r, s') ->
     field "sym" r = VStr (normalize symbol) /\
     cache s' !! ("full:" +:+ normalize symbol) = Some {| d := r; t := clock s' |}) /\
  (forall (env : providers) (symbol : string) (s : state) (c : pyval),
     served ("full:" +:+ normalize symbol) "quote" s = Some c ->
     fullstock env symbol s = (Ok c, s)) /\
  (forall base suffix : string,
     has_dot base = false ->
     suffix = "" \/ upper suffix = ".NS" \/ upper suffix = ".BO" ->
     normalize (base +:+ suffix) = upper base).
Proof.
  split; [reflexivity |]. split; [| split].
  - intros env symbol s s' r Hs Hrun.
    rewrite (fullstock_miss env symbol s Hs) in Hrun.
    destruct (fullstock_merge _ _ _ _) as [r0 | e] eqn:Hm; [| discriminate].
    injection Hrun as -> <-.
    destruct (fin_choice_statements env (normalize symbol)) as [ys Hys].
    destruct (merge_Ok_merged _ _ _ _ _ ys Hys Hm) as (p & m & _ & _ & ->).
    split; [reflexivity | apply lookup_insert_eq].
  - intros env symbol s c. apply fullstock_hit.
  - intros base suffix Hbase [-> | Hsuf].
    + rewrite append_empty. now apply normalize_plain.
    + now apply normalize_suffixed.
Qed.

(** [sym_and_key_normalized] at sample inputs. *)
Lemma sym_and_key_normalized_witness :
  field "sym" (empty_record "TCS") = VStr (normalize "tcs.ns") /\
  normalize ("tcs" +:+ ".ns") = upper "tcs".
Proof.
  pose proof sym_and_key_normalized as (_ & Hrun & _ & Hplain).
  split.
  - refine (proj1 (Hrun all_down "tcs.ns" cold
                     (snd (fullstock all_down "tcs.ns" cold))
                     (empty_record "TCS") eq_refl _)).
    rewrite (surjective_pairing (fullstock all_down "tcs.ns" cold)).
    f_equal. apply (fullstock_no_data all_down "tcs.ns" cold); reflexivity.
  - apply Hplain; [reflexivity | right; left; reflexivity].
Defined.

(** ** Derived fields *)

Section Derived.
Local Open Scope R_scope.

Lemma round_to_exact (ndigits : nat) (x : R) (k : Z) :
x * 10 ^ ndigits = IZR k -> round_to ndigits x = IZR k / 10 ^ ndigits.
Proof. intros H. unfold round_to. now rewrite H, round_half_even_IZR. Qed.

Lemma cold_serves_nothing (key ty : string) : served key ty cold = None.
Proof. apply served_absent, lookup_empty. Qed.

Lemma quoting_run (price cap : R) (count : pyval) (symbol : string) :
fst (fullstock (quoting price cap count) symbol cold)
= Ok (merged (normalize symbol)
        (isma_data (quoting price cap count) (normalize symbol))
        price cap sample_statements (Some "yfinance")).
Proof.
rewrite (fullstock_miss _ symbol cold (cold_serves_nothing _ _)).
change (fin_choice (quoting price cap count) (normalize symbol))
  with (Some {| years := map statement_dict sample_statements; shares := count |},
        Some "yfinance").
cbn [fst snd].
now rewrite (merge_eval _ _ _ _ price cap sample_statements).
Qed.

Lemma fullstock_miss_merged (env : providers) (symbol : string) (s : state)
  (r : pyval) :
served (full_key (normalize symbol)) "quote" s = None ->
fst (fullstock env symbol s) = Ok r ->
exists p m ys src,
  as_num (price_of (isma_data env (normalize symbol))) = Some p /\
  as_num (raw_cap_of (isma_data env (normalize symbol))) = Some m /\
  r = merged (normalize symbol) (isma_data env (normalize symbol)) p m ys src.
Proof.
intros Hs Hr. apply (fullstock_miss_merge env symbol s r Hs) in Hr.
destruct (fin_choice_statements env (normalize symbol)) as [ys Hys].
destruct (merge_Ok_merged _ _ _ _ _ ys Hys Hr) as (p & m & Hp & Hm & ->).
now exists p, m, ys, (snd (fin_choice env (normalize symbol))).
Qed.

Lemma crores_large (raw : R) : 1e6 < raw -> crores raw = raw / 1e7.
Proof. intros H. unfold crores. destruct (Rlt_dec 1e6 raw); [reflexivity | lra]. Qed.

Lemma crores_small (raw : R) : raw <= 1e6 -> crores raw = raw.
Proof. intros H. unfold crores. destruct (Rlt_dec 1e6 raw); [lra | reflexivity]. Qed.


End Derived.

(** C4 (as stated, refuted).  A raw market cap of 15,000,000 exceeds
    1,000,000 and is 1.5 crores, yet the record reports 2. *)
Lemma market_cap_field_is_rounded :
  field "mcapCr" (outcome (fullstock (quoting 10 15000000 VNone) "TCS" cold))
  = VNum 2 /\
  crores 15000000 = 1.5%R /\
  VNum 2 <> VNum (15000000 / 10000000).
Proof.
  assert (Hc : crores 15000000 = 1.5%R).
  { rewrite crores_large; lra. }
  split; [| split; [exact Hc |]].
  - unfold outcome. rewrite quoting_run. cbn [field dict_get merged result_dict String.eqb Ascii.eqb Bool.eqb].
    rewrite Hc. f_equal. unfold round_to.
    replace (1.5 * 10 ^ 0)%R with (IZR 1 + 1 / 2)%R by (simpl; lra).
    rewrite round_half_even_tie. cbn [Z.even]. rewrite plus_IZR. simpl. lra.
  - intros [= H]. lra.
Qed.

(** C4 (amended).  In a resolution the cache does not serve, the record's
    market cap in crores is the raw value supplied by the realtime provider,
    divided by 10,000,000 when it exceeds 1,000,000 and unchanged otherwise,
    rounded to the nearest whole number (halves to the even one); raw
    5,000,000,000 yields 500 and raw 500 yields 500. *)
Theorem market_cap_crores_rounded :
  (forall (env : providers) (symbol : string) (s : state) (q : quote)
          (raw : R) (r : pyval),
     served (full_key (normalize symbol)) "quote" s = None ->
     isma_data env (normalize symbol) = Some q ->
     mcap_raw q = VNum raw ->
     fst (fullstock env symbol s) = Ok r ->
     field "mcapCr" r = VNum (round_to 0 (crores raw))) /\
  (forall raw : R, (1e6 < raw)%R -> crores raw = (raw / 1e7)%R) /\
  (forall raw : R, (raw <= 1e6)%R -> crores raw = raw) /\
  round_to 0 (crores 5000000000) = 500%R /\
  round_to 0 (crores 500) = 500%R.
Proof.
  split; [| split; [exact crores_large | split; [exact crores_small |]]].
  - intros env symbol s q raw r Hs Hq Hraw Hr.
    destruct (fullstock_miss_merged env symbol s r Hs Hr)
      as (p & m & ys & src & _ & Hm & ->).
    rewrite Hq in Hm. simpl in Hm. rewrite Hraw in Hm. injection Hm as <-.
    reflexivity.
  - split.
    + rewrite crores_large by lra.
      rewrite (round_to_exact 0 _ 500); simpl; lra.
    + rewrite crores_small by lra.
      rewrite (round_to_exact 0 _ 500); simpl; lra.
Qed.

(** [market_cap_crores_rounded] at sample inputs. *)
Lemma market_cap_crores_rounded_witness :
  field "mcapCr" (outcome (fullstock (quoting 10 5000000000 VNone) "TCS" cold))
  = VNum (round_to 0 (crores 5000000000)).
Proof.
  apply (proj1 market_cap_crores_rounded (quoting 10 5000000000 VNone) "TCS" cold
           {| cmp := VNum 10; mcap_raw := VNum 5000000000; pe := VNum 0;
              eps := VNum 0; sector := VStr ""; industry := VStr "";
              name := VStr ""; change := VNum 0; changePct := VNum 0;
              yearHigh := VNum 0; yearLow := VNum 0; volume := VNum 0;
              bookValue := VNum 0; dividendYield := VNum 0 |}).
  - apply cold_serves_nothing.
  - reflexivity.
  - reflexivity.
  - unfold outcome. now rewrite quoting_run.
Defined.

(** ** Shares outstanding *)




(** ** The metric calculator, as specified *)



(** ** Batch quotes *)

Section Batch.
Variable env : providers.

Lemma batch_quotes_empty (s : state) :
batch_quotes env [] s = (Ok (VList []), s).
Proof. reflexivity. Qed.

Lemma batch_quotes_hit (symbols : list string) (s : state) (c : pyval) :
symbols <> [] ->
served (batch_key symbols) "quote" s = Some c ->
batch_quotes env symbols s = (Ok c, s).
Proof.
intros Hne H. destruct symbols as [| x l]; [contradiction |].
destruct (served_inv _ _ _ _ H) as (ent & _ & _ & _ & Ht & Hc).
unfold batch_quotes. cbv zeta. unfold mbind at 1. unfold M_bind at 1.
rewrite Hc, Ht. reflexivity.
Qed.

Lemma batch_quotes_miss (symbols : list string) (s : state) :
let ck := batch_key symbols in
let results := fst (batch_results (requests_get env (batch_url symbols))) in
symbols <> [] ->
served ck "quote" s = None ->
batch_quotes env symbols s
= (Ok (VList results),
   store ck (VList results)
     (issue env [Get (batch_url symbols)] (looked_up ck "quote" s))).
Proof.
intros ck results Hne H. destruct symbols as [| x l]; [contradiction |].
destruct (served_None_cached _ _ _ H) as (c & Hc & Ht).
unfold batch_quotes. cbv zeta. unfold mbind at 1. unfold M_bind at 1.
fold ck. rewrite Hc, Ht. reflexivity.
Qed.

Lemma batch_quotes_total (symbols : list string) (s : state) :
exists v s', batch_quotes env symbols s = (Ok v, s').
Proof.
destruct symbols as [| x l]; [rewrite batch_quotes_empty; eauto |].
destruct (served (batch_key (x :: l)) "quote" s) as [c |] eqn:Hs.
- rewrite (batch_quotes_hit _ s c) by (discriminate || assumption). eauto.
- rewrite (batch_quotes_miss _ s) by (discriminate || assumption). eauto.
Qed.

Lemma append_summaries_prefix (stocks results : list pyval) :
fst (append_summaries stocks results) = results ++ mapped_prefix stocks.
Proof.
revert results. induction stocks as [| x rest IH]; intros results; simpl.
- now rewrite app_nil_r.
- destruct (quote_summary x) as [r | e]; simpl.
  + rewrite IH. now rewrite <- app_assoc.
  + now rewrite app_nil_r.
Qed.

Lemma batch_url_first_20 (first rest : list string) :
length first = 20%nat -> batch_url (first ++ rest) = batch_url first.
Proof.
intros H. unfold batch_url.
rewrite take_app_length' by (symmetry; exact H).
now rewrite (take_ge first) by lia.
Qed.
End Batch.

Section Search.
Variable env : providers.

Lemma query_accepted (q : string) :
(2 <= String.length q)%nat ->
negb (truthy (VStr q)) || (String.length q <? 2)%nat = false.
Proof.
destruct q as [| c1 [| c2 q']]; simpl; try lia. reflexivity.
Qed.

Lemma search_miss (arg : string) (s : state) :
let q := strip arg in
let ck := search_key q in
(2 <= String.length q)%nat ->
served ck "search" s = None ->
search env arg s
= (Ok (VList (search_results env q)),
   store ck (VList (search_results env q))
     (issue env (search_requests env q) (looked_up ck "search" s))).
Proof.
intros q ck Hlen H.
destruct (served_None_cached _ _ _ H) as (c & Hc & Ht).
unfold search. cbv zeta. fold q. rewrite (query_accepted q Hlen).
unfold mbind at 1. unfold M_bind at 1. fold ck. rewrite Hc, Ht.
unfold search_isma, search_results, search_requests.
unfold mbind, M_bind, mret, M_ret.
rewrite perform_issue.
destruct (parse_search (requests_get env (search_url q))) as [| h hits];
  cbn [truthy negb].
- rewrite perform_issue, issue_app. reflexivity.
- reflexivity.
Qed.
End Search.

Section BatchFailure.
Local Open Scope R_scope.

Lemma summary_of_good :
quote_summary (VDict [("symbol", VStr "TCS"); ("market_cap", VNum 1000000000000)])
= Ok (VDict [("sym", VStr "TCS"); ("name", VStr ""); ("cmp", VNum 0);
             ("pe", VNum 0); ("mcapCr", VNum 100000); ("dayChangePct", VNum 0)]).
Proof.
unfold quote_summary. cbn [dict_get String.eqb Ascii.eqb Bool.eqb].
unfold py_div. cbn [as_num].
destruct (Req_dec_T 1e7 0); [lra |]. cbn [mbind res_bind py_round as_num].
rewrite (round_to_exact 0 _ 100000) by (simpl; lra).
replace (IZR 100000 / 10 ^ 0) with 100000 by (simpl; lra). reflexivity.
Qed.

Lemma summary_of_bad :
quote_summary (VDict [("symbol", VStr "BAD"); ("market_cap", VNone)])
= Raise TypeError.
Proof. reflexivity. Qed.

Lemma half_good_batch_results :
batch_results half_good_batch
= ([VDict [("sym", VStr "TCS"); ("name", VStr ""); ("cmp", VNum 0);
           ("pe", VNum 0); ("mcapCr", VNum 100000); ("dayChangePct", VNum 0)]],
   Some TypeError).
Proof.
unfold batch_results, half_good_batch.
cbn [Z.eqb Pos.eqb dict_get String.eqb Ascii.eqb Bool.eqb py_iter append_summaries].
rewrite summary_of_good. cbn [append_summaries app].
now rewrite summary_of_bad.
Qed.
End BatchFailure.

(** C7 (as stated, refuted).  The upstream answers 200 with two stocks, the
    second without a usable market cap: mapping it raises [TypeError], which
    the route catches, and the route returns the one summary built before the
    failure, not an empty list. *)
Lemma partial_batch_survives_failure :
  snd (batch_results half_good_batch) = Some TypeError /\
  fst (batch_quotes (answering half_good_batch) ["TCS"; "BAD"] cold)
  = Ok (VList [VDict [("sym", VStr "TCS"); ("name", VStr ""); ("cmp", VNum 0);
                      ("pe", VNum 0); ("mcapCr", VNum 100000);
                      ("dayChangePct", VNum 0)]]) /\
  fst (batch_quotes (answering half_good_batch) ["TCS"; "BAD"] cold)
  <> Ok (VList []).
Proof.
  assert (Hrun : fst (batch_quotes (answering half_good_batch) ["TCS"; "BAD"] cold)
                 = Ok (VList (fst (batch_results half_good_batch)))).
  { rewrite batch_quotes_miss; [reflexivity | discriminate | apply cold_serves_nothing]. }
  rewrite Hrun, half_good_batch_results. repeat split. discriminate.
Qed.

(** C7 (amended).  Batch quotes returns an empty array without any upstream
    call for an empty symbol list; when the cache does not serve the request
    it sends exactly one upstream request, naming the first 20 submitted
    symbols with [.NS] and [.BO] removed (of 25 symbols only the first 20);
    it never raises; and on a failure it returns the summaries of the stocks
    mapped before the failure: the empty list when the request itself fails,
    the status is not 200, the body does not parse, the payload is not an
    object or its stocks cannot be iterated. *)
Theorem batch_quotes_best_effort :
  (forall (env : providers) (s : state),
     batch_quotes env [] s = (Ok (VList []), s)) /\
  (forall (env : providers) (symbols : list string) (s : state),
     symbols <> [] -> served (batch_key symbols) "quote" s = None ->
     calls (snd (batch_quotes env symbols s))
     = calls s ++ [Get (ISMA_BASE +:+ "/stock/list?symbols="
                          +:+ join "," (map clean_symbol (take 20 symbols))
                          +:+ "&res=num")]) /\
  (forall first rest : list string,
     length first = 20%nat -> batch_url (first ++ rest) = batch_url first) /\
  (forall (env : providers) (symbols : list string) (s : state),
     exists v s', batch_quotes env symbols s = (Ok v, s')) /\
  (forall (env : providers) (symbols : list string) (s : state),
     symbols <> [] -> served (batch_key symbols) "quote" s = None ->
     fst (batch_quotes env symbols s)
     = Ok (VList (fst (batch_results (requests_get env (batch_url symbols)))))) /\
  (forall e, fst (batch_results (Failed e)) = []) /\
  (forall code body, code <> 200 -> fst (batch_results (Response code body)) = []) /\
  fst (batch_results (Response 200 None)) = [] /\
  (forall v, (forall data, v <> VDict data) ->
             fst (batch_results (Response 200 (Some v))) = []) /\
  (forall data e,
     py_iter (dict_get "stocks" data (VList [])) = Raise e ->
     fst (batch_results (Response 200 (Some (VDict data)))) = []) /\
  (forall data stocks,
     py_iter (dict_get "stocks" data (VList [])) = Ok stocks ->
     fst (batch_results (Response 200 (Some (VDict data)))) = mapped_prefix stocks).
Proof.
  split; [exact batch_quotes_empty |].
  split.
  { intros env symbols s Hne Hs. rewrite (batch_quotes_miss env symbols s Hne Hs).
    cbn [snd store issue calls]. now rewrite (proj1 (looked_up_calls _ _ s)). }
  split; [exact batch_url_first_20 |].
  split; [exact batch_quotes_total |].
  split.
  { intros env symbols s Hne Hs. now rewrite (batch_quotes_miss env symbols s Hne Hs). }
  split; [reflexivity |].
  split.
  { intros code body Hcode. unfold batch_results.
    destruct (Z.eqb_spec code 200); [contradiction | reflexivity]. }
  split; [reflexivity |].
  split.
  { intros v Hv. destruct v; try reflexivity. now destruct (Hv kv). }
  split.
  { intros data e He. unfold batch_results. cbn [Z.eqb Pos.eqb]. now rewrite He. }
  intros data stocks Hst. unfold batch_results. cbn [Z.eqb Pos.eqb].
  rewrite Hst. now rewrite append_summaries_prefix.
Qed.

(** [batch_quotes_best_effort] at sample inputs. *)
Lemma batch_quotes_best_effort_witness :
  calls (snd (batch_quotes all_down ["TCS.NS"; "INFY.BO"] cold))
  = calls cold ++ [Get (ISMA_BASE +:+ "/stock/list?symbols="
                         +:+ join "," (map clean_symbol (take 20 ["TCS.NS"; "INFY.BO"]))
                         +:+ "&res=num")] /\
  fst (batch_quotes all_down ["TCS.NS"; "INFY.BO"] cold) = Ok (VList []) /\
  fst (batch_results (Response 404 None)) = [].
Proof.
  destruct batch_quotes_best_effort
    as (_ & Hcalls & _ & _ & Hres & _ & Hcode & _).
  split; [| split].
  - apply Hcalls; [discriminate | apply cold_serves_nothing].
  - rewrite Hres; [reflexivity | discriminate | apply cold_serves_nothing].
  - apply Hcode. discriminate.
Defined.

(** ** A cached empty list does not count as a hit *)

(** C9.  For batch quotes and for search, an unexpired cache entry whose
    payload is the empty list is not served: the request goes upstream again
    and the entry is overwritten with the new result and a new time stamp. *)
Theorem cached_empty_list_is_a_miss :
  (forall (env : providers) (symbols : list string) (s : state) (ent : entry),
     symbols <> [] ->
     cache s !! batch_key symbols = Some ent -> d ent = VList [] ->
     (clock s - t ent <= 300)%R ->
     let run := batch_quotes env symbols s in
     let results := fst (batch_results (requests_get env (batch_url symbols))) in
     fst run = Ok (VList results) /\
     calls (snd run) = calls s ++ [Get (batch_url symbols)] /\
     cache (snd run)
     = <[batch_key symbols := {| d := VList results; t := clock (snd run) |}]>
         (cache s)) /\
  (forall (env : providers) (arg : string) (s : state) (ent : entry),
     let q := strip arg in
     (2 <= String.length q)%nat ->
     cache s !! search_key q = Some ent -> d ent = VList [] ->
     (clock s - t ent <= 86400)%R ->
     let run := search env arg s in
     fst run = Ok (VList (search_results env q)) /\
     calls (snd run) = calls s ++ search_requests env q /\
     (exists rest, search_requests env q = Get (search_url q) :: rest) /\
     cache (snd run)
     = <[search_key q := {| d := VList (search_results env q);
                            t := clock (snd run) |}]> (cache s)).
Proof.
  split.
  - intros env symbols s ent Hne Hent Hd Hfresh run results.
    assert (Hx : unexpired "quote" (clock s) ent) by exact Hfresh.
    assert (Hf : truthy (d ent) = false) by now rewrite Hd.
    destruct (served_falsy _ _ _ _ Hent Hx Hf) as [Hs Hl].
    subst run. rewrite (batch_quotes_miss env symbols s Hne Hs), Hl.
    repeat split.
  - intros env arg s ent q Hlen Hent Hd Hfresh run.
    assert (Hx : unexpired "search" (clock s) ent) by exact Hfresh.
    assert (Hf : truthy (d ent) = false) by now rewrite Hd.
    destruct (served_falsy _ _ _ _ Hent Hx Hf) as [Hs Hl].
    subst run. rewrite (search_miss env arg s Hlen Hs). fold q. rewrite Hl.
    repeat split. unfold search_requests. eauto.
Qed.

(** [cached_empty_list_is_a_miss] at sample inputs. *)
Lemma cached_empty_list_is_a_miss_witness :
  calls (snd (batch_quotes all_down ["TCS"] (holding (batch_key ["TCS"]) (VList []) 10)))
  = [Get (batch_url ["TCS"])] /\
  calls (snd (search all_down " tcs " (holding (search_key (strip " tcs ")) (VList []) 10)))
  = search_requests all_down (strip " tcs ").
Proof.
  destruct cached_empty_list_is_a_miss as [Hbatch Hsearch]. split.
  - refine (proj1 (proj2 (Hbatch all_down ["TCS"]
                            (holding (batch_key ["TCS"]) (VList []) 10)
                            {| d := VList []; t := 0 |} _ _ _ _))).
    + discriminate.
    + apply lookup_singleton_eq.
    + reflexivity.
    + simpl. lra.
  - refine (proj1 (proj2 (Hsearch all_down " tcs "
                            (holding (search_key (strip " tcs ")) (VList []) 10)
                            {| d := VList []; t := 0 |} _ _ _ _))).
    + vm_compute. lia.
    + apply lookup_singleton_eq.
    + reflexivity.
    + simpl. lra.
Defined.

(** ** The batch key ignores the order of the symbols *)

Section BatchKey.


End BatchKey.



(** * Further properties of the code *)

(** ** The cache as a store *)

Section Store.
Local Open Scope R_scope.

Lemma TTL_get_nonneg (ty : string) : 0 <= TTL_get TTL ty.
Proof.
unfold TTL_get, TTL.
repeat match goal with |- context [String.eqb ?a ?b] => destruct (String.eqb a b) end;
  lra.
Qed.

Lemma TTL_get_values (ty : string) :
TTL_get TTL ty
= if String.eqb ty "financials" || String.eqb ty "search" then 86400 else 300.
Proof.
unfold TTL_get, TTL.
rewrite (String.eqb_sym ty "financials"), (String.eqb_sym ty "search").
destruct (String.eqb_spec "quote" ty) as [<- | _]; [reflexivity |].
destruct (String.eqb "financials" ty); [reflexivity |].
destruct (String.eqb "search" ty); reflexivity.
Qed.
End Store.

(** X1.  What [set_cache] stores under a key is what [cached] returns for
    that key right afterwards, for every time-to-live category, and the
    lookup changes nothing; lookups of every other key answer as before the
    store. *)
Theorem set_cache_then_cached (key : string) (data : pyval) (s : state) :
  let s' := snd (set_cache key data s) in
  (forall ty, cached key ty s' = (Ok data, s')) /\
  (forall key' ty, key' <> key -> fst (cached key' ty s') = fst (cached key' ty s)).
Proof.
  intros s'. split.
  - intros ty. apply (cached_fresh key ty s' {| d := data; t := clock s |}).
    + apply lookup_insert_eq.
    + unfold unexpired. cbn [t clock s' snd set_cache].
      pose proof (TTL_get_nonneg ty). lra.
  - intros key' ty Hne. unfold cached. cbn [cache clock s' snd set_cache].
    rewrite lookup_insert_ne by congruence.
    destruct (cache s !! key') as [ent |]; [| reflexivity].
    now destruct (Rlt_dec _ _).
Qed.

(** [set_cache_then_cached] at sample inputs. *)
Lemma set_cache_then_cached_witness :
  fst (cached "full:INFY" "quote" (snd (set_cache "full:TCS" (VStr "x") cold)))
  = fst (cached "full:INFY" "quote" cold).
Proof.
  apply (proj2 (set_cache_then_cached "full:TCS" (VStr "x") cold)).
  discriminate.
Defined.

(** X2.  A lookup reads the clock and the cache and touches nothing else:
    the clock and the request log stay, entries under other keys stay.  An
    entry older than the time to live of the category (300 s, or 86400 s for
    "financials" and "search") is deleted and [None] is returned; an entry
    exactly as old as the time to live is still served and kept. *)
Theorem cached_evicts_only_stale_key (key ty : string) (s : state) :
  let s' := snd (cached key ty s) in
  let ttl := if String.eqb ty "financials" || String.eqb ty "search"
             then 86400%R else 300%R in
  clock s' = clock s /\ calls s' = calls s /\
  (forall k, k <> key -> cache s' !! k = cache s !! k) /\
  (cache s !! key = None -> cached key ty s = (Ok VNone, s)) /\
  (forall ent, cache s !! key = Some ent ->
     ((ttl < clock s - t ent)%R ->
      fst (cached key ty s) = Ok VNone /\ cache s' = delete key (cache s)) /\
     ((clock s - t ent <= ttl)%R -> cached key ty s = (Ok (d ent), s))).
Proof.
  intros s' ttl. subst s' ttl. rewrite <- TTL_get_values.
  split; [apply (looked_up_calls key ty s) |].
  split; [apply (looked_up_calls key ty s) |].
  split; [| split].
  - intros k Hk. unfold cached.
    destruct (cache s !! key) as [ent |]; [| reflexivity].
    destruct (Rlt_dec _ _); [| reflexivity].
    cbn [snd cache]. apply lookup_delete_ne. congruence.
  - apply cached_absent.
  - intros ent Hent. split.
    + intros Hold. rewrite (cached_expired key ty s ent Hent).
      * now split.
      * unfold unexpired. lra.
    + intros Hfresh. now apply cached_fresh.
Qed.

(** [cached_evicts_only_stale_key] at sample inputs. *)
Lemma cached_evicts_only_stale_key_witness :
  cached "full:TCS" "quote" (holding "full:TCS" (VStr "x") 300)
  = (Ok (VStr "x"), holding "full:TCS" (VStr "x") 300) /\
  fst (cached "full:TCS" "quote" (holding "full:TCS" (VStr "x") 301)) = Ok VNone.
Proof.
  split.
  - refine (proj2 (proj2 (proj2 (proj2 (proj2
              (cached_evicts_only_stale_key "full:TCS" "quote"
                 (holding "full:TCS" (VStr "x") 300)))))
              {| d := VStr "x"; t := 0 |} _) _).
    + apply lookup_singleton_eq.
    + simpl. lra.
  - refine (proj1 (proj1 (proj2 (proj2 (proj2 (proj2
              (cached_evicts_only_stale_key "full:TCS" "quote"
                 (holding "full:TCS" (VStr "x") 301)))))
              {| d := VStr "x"; t := 0 |} _) _)).
    + apply lookup_singleton_eq.
    + simpl. lra.
Defined.

(** ** Errors of a resolution *)

Section ResolutionErrors.
Variable env : providers.


End ResolutionErrors.



(** ** An outage is cached *)

(** X4.  When no provider has data for a symbol the cache does not serve,
    the all-zero record is stored like any other: for the next 300 seconds
    every resolution of the symbol returns it without asking any provider,
    whatever the providers would answer by then. *)
Theorem outage_is_cached (env1 env2 : providers) (symbol symbol' : string)
    (s s2 : state) :
  let sym := normalize symbol in
  let s1 := snd (fullstock env1 symbol s) in
  served (full_key sym) "quote" s = None ->
  isma_data env1 sym = None -> eodhd_data env1 sym = None ->
  yfinance_data env1 sym = None ->
  normalize symbol' = sym ->
  cache s2 = cache s1 -> (clock s2 - clock s1 <= 300)%R ->
  fullstock env2 symbol' s2 = (Ok (empty_record sym), s2).
Proof.
  intros sym s1 Hs Hi He Hy Hsame Hc Hfresh. subst s1.
  rewrite (fullstock_miss env1 symbol s Hs) in Hc, Hfresh. fold sym in Hc, Hfresh.
  unfold fin_choice in Hc, Hfresh. rewrite Hi, He, Hy in Hc, Hfresh.
  cbn [fst snd] in Hc, Hfresh.
  rewrite (merge_eval _ None None None 0 0 []) in Hc, Hfresh by reflexivity.
  rewrite merged_nothing in Hc, Hfresh. cbn [snd] in Hc, Hfresh.
  apply fullstock_hit. rewrite Hsame.
  set (ent := {| d := empty_record sym;
                 t := clock (issue env1 (resolve_requests env1 sym)
                               (looked_up (full_key sym) "quote" s)) |}).
  apply (proj1 (served_fresh (full_key sym) "quote" s2 ent
                  ltac:(rewrite Hc; apply lookup_insert_eq)
                  ltac:(exact Hfresh) eq_refl)).
Qed.

(** [outage_is_cached] at sample inputs. *)
Lemma outage_is_cached_witness :
  fullstock (all_up "demo") "TCS.NS" (snd (fullstock all_down "tcs" cold))
  = (Ok (empty_record "TCS"), snd (fullstock all_down "tcs" cold)).
Proof.
  apply (outage_is_cached all_down (all_up "demo") "tcs" "TCS.NS" cold);
    try reflexivity.
  rewrite Rminus_diag. lra.
Defined.

(** ** The health summary *)

Section Health.

Lemma fullstock_cache_size (env : providers) (symbol : string) (s s' : state)
  (r : pyval) :
fullstock env symbol s = (Ok r, s') ->
size (cache s')
= match cache s !! full_key (normalize symbol) with
  | Some _ => size (cache s)
  | None => S (size (cache s))
  end.
Proof.
intros Hrun.
destruct (served (full_key (normalize symbol)) "quote" s) as [c |] eqn:Hs.
- rewrite (fullstock_hit env symbol s c Hs) in Hrun. injection Hrun as _ <-.
  destruct (served_inv _ _ _ _ Hs) as (ent & -> & _). reflexivity.
- rewrite (fullstock_miss env symbol s Hs) in Hrun.
  destruct (fullstock_merge _ _ _ _) as [r0 | e]; [| discriminate].
  injection Hrun as _ <-. cbn [store cache issue].
  unfold looked_up, cached.
  destruct (cache s !! full_key (normalize symbol)) as [ent |] eqn:E.
  + destruct (Rlt_dec _ _); cbn [snd cache].
    * rewrite insert_delete_eq. now rewrite map_size_insert, E.
    * now rewrite map_size_insert, E.
  + cbn [snd]. now rewrite map_size_insert, E.
Qed.
End Health.

(** X5.  The health summary leaves the state as it is and reports the number
    of cache entries, expired ones included.  A resolution that returns adds
    one entry when none was held under the symbol's key, whether fresh or
    expired, and none otherwise: entries of other keys are never removed. *)
Theorem health_counts_cache_entries (env : providers) :
  (forall s, snd (health env s) = s /\
             field "cache_entries" (outcome (health env s))
             = VNum (INR (size (cache s)))) /\
  (forall (symbol : string) (s s' : state) (r : pyval),
     fullstock env symbol s = (Ok r, s') ->
     field "cache_entries" (outcome (health env s'))
     = VNum (INR (match cache s !! full_key (normalize symbol) with
                  | Some _ => size (cache s)
                  | None => S (size (cache s))
                  end))).
Proof.
  split.
  - intros s. split; reflexivity.
  - intros symbol s s' r Hrun.
    rewrite <- (fullstock_cache_size env symbol s s' r Hrun). reflexivity.
Qed.

(** [health_counts_cache_entries] at sample inputs. *)
Lemma health_counts_cache_entries_witness :
  field "cache_entries"
    (outcome (health all_down (snd (fullstock all_down "tcs.ns" cold))))
  = VNum (INR 1).
Proof.
  refine (proj2 (health_counts_cache_entries all_down) "tcs.ns" cold _
            (empty_record "TCS") _).
  rewrite (surjective_pairing (fullstock all_down "tcs.ns" cold)).
  f_equal. apply (fullstock_no_data all_down "tcs.ns" cold); reflexivity.
Defined.

(** X6.  When the health summary reports EODHD as not configured, it names
    Yahoo Finance as the financials source, no resolution sends a request to
    EODHD, and no record built by a resolution has provenance "eodhd". *)
Theorem unconfigured_eodhd_is_never_asked (env : providers) (s0 : state) :
  field "eodhd_configured" (outcome (health env s0)) = VBool false ->
  field "financials" (field "sources" (outcome (health env s0)))
  = VStr "Yahoo Finance (INR)" /\
  forall (symbol : string) (s : state),
    (forall ticker, In (GetEodhd ticker) (calls (snd (fullstock env symbol s))) ->
                    In (GetEodhd ticker) (calls s)) /\
    (forall r, served (full_key (normalize symbol)) "quote" s = None ->
               fst (fullstock env symbol s) = Ok r ->
               field "financials" (field "_source" r) <> VStr "eodhd").
Proof.
  intros Hcfg. cbn in Hcfg.
  assert (Hkey : String.eqb (EODHD_KEY env) "" = true).
  { injection Hcfg as H. now destruct (String.eqb (EODHD_KEY env) ""). }
  split.
  - cbn. now rewrite Hkey.
  - intros symbol s.
    assert (Hed : eodhd_data env (normalize symbol) = None)
      by (unfold eodhd_data; now rewrite Hkey).
    split.
    + intros ticker.
      destruct (served (full_key (normalize symbol)) "quote" s) as [c |] eqn:Hs.
      * now rewrite (fullstock_hit env symbol s c Hs).
      * rewrite (fullstock_miss_calls env symbol s Hs).
        unfold resolve_requests, fin_requests. rewrite Hkey, Hed.
        rewrite in_app_iff. intros [H | H]; [exact H |].
        cbn in H. destruct H as [H | [H | []]]; discriminate.
    + intros r Hs Hr.
      destruct (fullstock_miss_merged env symbol s r Hs Hr)
        as (p & m & ys & src & _ & _ & ->).
      apply (fullstock_miss_merge env symbol s _ Hs) in Hr.
      unfold fin_choice in Hr. rewrite Hed in Hr. cbn [fst snd] in Hr.
      destruct (yfinance_data env (normalize symbol)) as [f |] eqn:Hy.
      * destruct (yfinance_data_statements env _ f Hy) as [ys' Hys'].
        destruct (merge_Ok_merged _ _ (Some f) _ _ ys' Hys' Hr)
          as (p' & m' & _ & _ & Heq).
        rewrite Heq. cbn. discriminate.
      * destruct (merge_Ok_merged _ _ None _ _ [] eq_refl Hr)
          as (p' & m' & _ & _ & Heq).
        rewrite Heq. cbn. discriminate.
Qed.

(** [unconfigured_eodhd_is_never_asked] at sample inputs. *)
Lemma unconfigured_eodhd_is_never_asked_witness :
  field "financials" (field "sources" (outcome (health all_down cold)))
  = VStr "Yahoo Finance (INR)".
Proof.
  apply (proj1 (unconfigured_eodhd_is_never_asked all_down cold eq_refl)).
Defined.

(** ** What each upstream is asked *)

Section Tickers.

Lemma clean_symbol_plain (u : string) : has_dot u = false -> clean_symbol u = u.
Proof.
intros H. unfold clean_symbol. rewrite (replace_no_dot "NS" "" u H).
now apply replace_no_dot.
Qed.

Lemma yf_ticker_plain (u : string) : has_dot u = false -> yf_ticker u = u +:+ ".NS".
Proof. intros H. unfold yf_ticker. now rewrite H. Qed.
End Tickers.

(** X7.  For a ticker without a dot, submitted bare or with [.NS] or [.BO] in
    any letter case, a resolution the cache does not serve asks the realtime
    provider about the uppercased ticker, then EODHD (if a key is
    configured) about the ticker with [.NSE] appended, then yfinance (if
    EODHD gave no data) about the ticker with [.NS] appended, also when the
    request named the [.BO] listing. *)
Theorem upstream_tickers (env : providers) (base suffix : string) (s : state) :
  has_dot base = false ->
  suffix = "" \/ upper suffix = ".NS" \/ upper suffix = ".BO" ->
  served (full_key (upper base)) "quote" s = None ->
  calls (snd (fullstock env (base +:+ suffix) s))
  = calls s
    ++ Get (ISMA_BASE +:+ "/stock?symbol=" +:+ upper base +:+ "&res=num")
       :: (if String.eqb (EODHD_KEY env) "" then []
           else [GetEodhd (upper base +:+ ".NSE")])
       ++ match eodhd_data env (upper base) with
          | Some _ => []
          | None => [YfFinancials (upper base +:+ ".NS")]
          end.
Proof.
  intros Hbase Hsuf Hs.
  assert (Hn : normalize (base +:+ suffix) = upper base).
  { destruct Hsuf as [-> | Hsuf].
    - rewrite append_empty. now apply normalize_plain.
    - now apply normalize_suffixed. }
  assert (Hu : has_dot (upper base) = false) by now rewrite upper_has_dot.
  rewrite fullstock_miss_calls by now rewrite Hn.
  rewrite Hn. unfold resolve_requests, fin_requests, stock_url, eodhd_ticker.
  now rewrite (clean_symbol_plain _ Hu), (yf_ticker_plain _ Hu).
Qed.

(** [upstream_tickers] at sample inputs. *)
Lemma upstream_tickers_witness :
  calls (snd (fullstock all_down ("reliance" +:+ ".bo") cold))
  = calls cold
    ++ Get (ISMA_BASE +:+ "/stock?symbol=" +:+ upper "reliance" +:+ "&res=num")
       :: (if String.eqb (EODHD_KEY all_down) "" then []
           else [GetEodhd (upper "reliance" +:+ ".NSE")])
       ++ match eodhd_data all_down (upper "reliance") with
          | Some _ => []
          | None => [YfFinancials (upper "reliance" +:+ ".NS")]
          end.
Proof.
  apply (upstream_tickers all_down "reliance" ".bo" cold).
  - reflexivity.
  - right. right. reflexivity.
  - apply cold_serves_nothing.
Defined.

(** ** Statement fields of the record *)

Section StatementFields.
Local Open Scope R_scope.

Lemma cagr_of_short (get : statement -> R) (ys : list statement) (n : Z) :
(Z.of_nat (length ys) < n + 1)%Z -> (0 <= n)%Z -> cagr_of get ys n = VNone.
Proof.
intros Hlen Hn. unfold cagr_of.
rewrite (lookup_ge_None_2 ys (Z.to_nat n)) by lia.
now destruct (ys !! 0%nat).
Qed.
End StatementFields.

(** X8.  In a record built by a resolution, [years_available] is the number
    of statements of the financials answer used, [rev] and [pat] are those of
    its first (latest) statement, 0 without statements; the 3-year growth
    fields are [None] with fewer than 4 statements and the 5-year ones with
    fewer than 6. *)
Theorem statement_fields (env : providers) (symbol : string) (s : state)
    (r : pyval) :
  served (full_key (normalize symbol)) "quote" s = None ->
  fst (fullstock env symbol s) = Ok r ->
  exists ys,
    statements_of (fst (fin_choice env (normalize symbol))) ys /\
    field "years_available" (field "_source" r) = VNum (INR (length ys)) /\
    field "rev" r = VNum (match ys with y0 :: _ => rev y0 | [] => 0%R end) /\
    field "pat" r = VNum (match ys with y0 :: _ => pat y0 | [] => 0%R end) /\
    ((length ys < 4)%nat -> field "r3" r = VNone /\ field "p3" r = VNone) /\
    ((length ys < 6)%nat -> field "r5" r = VNone /\ field "p5" r = VNone).
Proof.
  intros Hs Hr. apply (fullstock_miss_merge env symbol s r Hs) in Hr.
  destruct (fin_choice_statements env (normalize symbol)) as [ys Hys].
  destruct (merge_Ok_merged _ _ _ _ _ ys Hys Hr) as (p & m & _ & _ & ->).
  exists ys. split; [exact Hys |].
  split; [cbn; now rewrite length_map |].
  split; [cbn; now destruct ys |].
  split; [cbn; now destruct ys |].
  split; intros Hlen; cbn; rewrite !cagr_of_short by lia; now split.
Qed.

(** [statement_fields] at sample inputs. *)
Lemma statement_fields_witness :
  exists ys,
    statements_of (fst (fin_choice (quoting 10 500 VNone) (normalize "TCS"))) ys /\
    field "years_available"
      (field "_source" (outcome (fullstock (quoting 10 500 VNone) "TCS" cold)))
    = VNum (INR (length ys)).
Proof.
  destruct (statement_fields (quoting 10 500 VNone) "TCS" cold
              (outcome (fullstock (quoting 10 500 VNone) "TCS" cold)))
    as (ys & Hys & Hn & _).
  - apply cold_serves_nothing.
  - unfold outcome. now rewrite quoting_run.
  - now exists ys.
Defined.

(** ** The realtime adapter *)

(** X9.  [fetch_isma] has data exactly when the response has status 200 and
    a body that parses to an object whose [status] is ["success"] and whose
    [data], if present, is an object; every other response (transport
    failure, another status, unparseable or non-object body, another status
    field, [data] of another type) gives [None].  Its price and market cap
    are the payload's [last_price] and [market_cap], 0 when the key is
    missing. *)
Theorem parse_isma_some_iff (resp : http_response) :
  (is_Some (parse_isma resp) <->
   exists code data dd,
     resp = Response code (Some (VDict data)) /\ code = 200 /\
     dict_get "status" data VNone = VStr "success" /\
     dict_get "data" data (VDict []) = VDict dd) /\
  (forall q data dd,
     resp = Response 200 (Some (VDict data)) ->
     dict_get "data" data (VDict []) = VDict dd ->
     parse_isma resp = Some q ->
     cmp q = dict_get "last_price" dd (VNum 0) /\
     mcap_raw q = dict_get "market_cap" dd (VNum 0) /\
     name q = dict_get "company_name" dd (VStr "")).
Proof.
  split.
  - split.
    + intros [q Hq]. unfold parse_isma in Hq.
      destruct resp as [e | code body]; [discriminate |].
      destruct (Z.eqb_spec code 200) as [-> | Hne]; [| discriminate].
      cbn [negb] in Hq.
      destruct body as [[| | | | | data] |]; try discriminate.
      unfold status_not_success in Hq.
      destruct (dict_get "status" data VNone) as [| | | st | |] eqn:Hst;
        try discriminate.
      destruct (String.eqb_spec st "success") as [-> | Hns]; [| discriminate].
      cbn [negb] in Hq.
      destruct (dict_get "data" data (VDict [])) as [| | | | | dd] eqn:Hdd;
        try discriminate.
      now exists 200, data, dd.
    + intros (code & data & dd & -> & -> & Hst & Hdd).
      cbn [parse_isma Z.eqb Pos.eqb negb]. unfold status_not_success.
      rewrite Hst, Hdd. cbn. eauto.
  - intros q data dd -> Hdd. cbn [parse_isma Z.eqb Pos.eqb negb].
    destruct (status_not_success data); [discriminate |]. rewrite Hdd.
    intros [= <-]. repeat split.
Qed.

(** [parse_isma_some_iff] at sample inputs. *)
Lemma parse_isma_some_iff_witness :
  is_Some (parse_isma (Response 200 (Some sample_payload))) /\
  ~ is_Some (parse_isma (Response 503 (Some sample_payload))).
Proof.
  split.
  - apply (proj1 (parse_isma_some_iff _)).
    eexists. eexists. eexists. repeat split; reflexivity.
  - intros H. apply (proj1 (parse_isma_some_iff _)) in H.
    destruct H as (code & data & dd & Heq & Hcode & _).
    injection Heq as <- _. discriminate Hcode.
Defined.

(** X10.  A realtime answer that reports success without a [data] object
    still counts as data: the record built from it has provenance realtime
    ["isma"], price 0, market cap 0, shares 0 and the empty string as name,
    not the symbol. *)
Theorem success_without_data (env : providers) (symbol : string) (s : state)
    (data : dict) (r : pyval) :
  let sym := normalize symbol in
  requests_get env (stock_url (clean_symbol sym)) = Response 200 (Some (VDict data)) ->
  dict_get "status" data VNone = VStr "success" ->
  dict_get "data" data (VDict []) = VDict [] ->
  served (full_key sym) "quote" s = None ->
  fst (fullstock env symbol s) = Ok r ->
  field "realtime" (field "_source" r) = VStr "isma" /\
  field "name" r = VStr "" /\
  field "cmp" r = VNum 0 /\ field "mcapCr" r = VNum 0 /\ field "shr" r = VNum 0.
Proof.
  intros sym Hresp Hst Hdd Hs Hr.
  destruct (fullstock_miss_merged env symbol s r Hs Hr)
    as (p & m & ys & src & Hp & Hm & ->).
  fold sym in Hp, Hm |- *.
  assert (Hq : isma_data env sym
               = Some {| cmp := VNum 0; mcap_raw := VNum 0; pe := VNum 0;
                         eps := VNum 0; sector := VStr ""; industry := VStr "";
                         name := VStr ""; change := VNum 0; changePct := VNum 0;
                         yearHigh := VNum 0; yearLow := VNum 0; volume := VNum 0;
                         bookValue := VNum 0; dividendYield := VNum 0 |}).
  { unfold isma_data. rewrite Hresp. cbn [parse_isma Z.eqb Pos.eqb negb].
    unfold status_not_success. rewrite Hst, Hdd. reflexivity. }
  rewrite Hq in Hp, Hm |- *. cbn in Hp, Hm.
  injection Hp as <-. injection Hm as <-.
  cbn [field dict_get merged result_dict price_of String.eqb Ascii.eqb Bool.eqb
       name cmp].
  rewrite crores_0, derived_shares_unpriced, !round_to_zero. repeat split.
Qed.

(** [success_without_data] at sample inputs. *)
Lemma success_without_data_witness :
  field "realtime"
    (field "_source"
       (outcome (fullstock
                   (answering (Response 200 (Some (VDict [("status", VStr "success")]))))
                   "TCS" cold)))
  = VStr "isma".
Proof.
  set (env := answering (Response 200 (Some (VDict [("status", VStr "success")])))).
  assert (Hrun : exists r, fst (fullstock env "TCS" cold) = Ok r).
  { destruct (fullstock_total env "TCS" cold) as (r & s' & Hrun & _).
    - intros q Hq. cbv in Hq. injection Hq as <-. split; eexists; reflexivity.
    - exists r. now rewrite Hrun. }
  destruct Hrun as [r Hr]. unfold outcome. rewrite Hr.
  apply (success_without_data env "TCS" cold [("status", VStr "success")] r);
    first [reflexivity | apply cold_serves_nothing | exact Hr].
Defined.

(** ** The search adapter *)

Section SearchShape.

Lemma search_hits_shape (results hits : list pyval) :
search_hits results = Ok hits ->
length hits = length results /\
Forall (fun h => exists kv, h = VDict kv /\ field "sec" h = VStr "NSE") hits.
Proof.
revert hits. induction results as [| x rest IH]; intros hits; cbn [search_hits].
- intros [= <-]. split; [reflexivity | constructor].
- destruct x; try discriminate.
  destruct (search_hits rest) as [hs | e]; [| discriminate].
  cbn [mbind res_bind]. intros [= <-].
  destruct (IH hs eq_refl) as [Hlen Hall]. split; [cbn; now rewrite Hlen |].
  constructor; [| exact Hall]. eexists. split; reflexivity.
Qed.

Lemma search_hits_raise (results : list pyval) (e : exn) :
search_hits results = Raise e ->
exists x, In x results /\ forall kv, x <> VDict kv.
Proof.
induction results as [| x rest IH]; cbn [search_hits]; [discriminate |].
destruct x;
  try (intros _; eexists; split; [left; reflexivity | discriminate]).
destruct (search_hits rest) as [hs | e']; [discriminate |].
cbn [mbind res_bind]. intros H. destruct (IH H) as (x & Hin & Hx).
exists x. split; [now right | exact Hx].
Qed.
End SearchShape.

(** X11.  [search_isma] returns at most 15 hits, each an object tagged
    [sec = "NSE"]; it is all or nothing: when the first 15 results are all
    objects there is one hit per result, and when one of them is not an
    object the whole answer is the empty list.  Results beyond the 15th are
    never looked at. *)
Theorem parse_search_shape (resp : http_response) :
  (length (parse_search resp) <= 15)%nat /\
  Forall (fun h => exists kv, h = VDict kv /\ field "sec" h = VStr "NSE")
         (parse_search resp) /\
  (forall data results,
     resp = Response 200 (Some (VDict data)) ->
     dict_get "status" data VNone = VStr "success" ->
     dict_get "results" data (VList []) = VList results ->
     (Forall (fun x => exists kv, x = VDict kv) (take 15 results) ->
      length (parse_search resp) = length (take 15 results)) /\
     ((exists x, In x (take 15 results) /\ forall kv, x <> VDict kv) ->
      parse_search resp = [])).
Proof.
  assert (Hgen : forall results,
             (length match search_hits (take 15 results) with
                     | Ok hits => hits | Raise _ => [] end <= 15)%nat /\
             Forall (fun h => exists kv, h = VDict kv /\ field "sec" h = VStr "NSE")
               match search_hits (take 15 results) with
               | Ok hits => hits | Raise _ => [] end).
  { intros results.
    destruct (search_hits (take 15 results)) as [hits | e] eqn:E.
    - destruct (search_hits_shape _ _ E) as [Hlen Hall]. split; [| exact Hall].
      rewrite Hlen, length_take. lia.
    - split; [cbn; lia | constructor]. }
  assert (Hcases : parse_search resp = [] \/
                   exists results,
                     parse_search resp
                     = match search_hits (take 15 results) with
                       | Ok hits => hits | Raise _ => [] end).
  { unfold parse_search. destruct resp as [e | code body]; [now left |].
    destruct (negb (code =? 200)); [now left |].
    destruct body as [[| | | | | data] |]; try now left.
    destruct (status_not_success data); [now left |].
    destruct (dict_get "results" data (VList [])) as [| | | | results |];
      try now left.
    right. now exists results. }
  split; [| split].
  - destruct Hcases as [-> | [results ->]]; [cbn; lia | apply Hgen].
  - destruct Hcases as [-> | [results ->]]; [constructor | apply Hgen].
  - intros data results -> Hst Hres. cbn [parse_search Z.eqb Pos.eqb negb].
    unfold status_not_success. rewrite Hst, Hres. cbn [String.eqb Ascii.eqb Bool.eqb negb].
    split.
    + intros Hall.
      destruct (search_hits (take 15 results)) as [hits | e] eqn:E.
      * exact (proj1 (search_hits_shape _ _ E)).
      * destruct (search_hits_raise _ _ E) as (x & Hin & Hx).
        rewrite Forall_forall in Hall.
        destruct (Hall x) as [kv Hkv]; [now apply list_elem_of_In |].
        now destruct (Hx kv).
    + intros (x & Hin & Hx).
      destruct (search_hits (take 15 results)) as [hits | e] eqn:E;
        [| reflexivity].
      exfalso. clear -E Hin Hx. revert hits E.
      induction (take 15 results) as [| y rest IH]; [destruct Hin |].
      intros hits. cbn [search_hits].
      destruct Hin as [<- | Hin].
      * destruct y; try discriminate. now destruct (Hx kv).
      * destruct y; try discriminate.
        destruct (search_hits rest) as [hs | e]; [| discriminate].
        intros _. now apply (IH Hin hs).
Qed.

(** [parse_search_shape] at sample inputs. *)
Lemma parse_search_shape_witness :
  parse_search
    (Response 200
       (Some (VDict [("status", VStr "success");
                     ("results", VList [VDict [("symbol", VStr "TCS")];
                                        VStr "garbage"])])))
  = [].
Proof.
  refine (proj2 (proj2 (proj2 (parse_search_shape _))
                   [("status", VStr "success");
                    ("results", VList [VDict [("symbol", VStr "TCS")];
                                       VStr "garbage"])]
                   [VDict [("symbol", VStr "TCS")]; VStr "garbage"]
                   eq_refl eq_refl eq_refl) _).
  exists (VStr "garbage"). split; [right; left; reflexivity | discriminate].
Defined.

(** ** The search route *)

Section SearchRoute.
Variable env : providers.

Lemma query_rejected (q : string) :
(String.length q < 2)%nat ->
negb (truthy (VStr q)) || (String.length q <? 2)%nat = true.
Proof.
intros H. destruct (Nat.ltb_spec (String.length q) 2); [| lia].
apply orb_true_r.
Qed.

Lemma search_hit (arg : string) (s : state) (c : pyval) :
(2 <= String.length (strip arg))%nat ->
served (search_key (strip arg)) "search" s = Some c ->
search env arg s = (Ok c, s).
Proof.
intros Hlen H.
destruct (served_inv _ _ _ _ H) as (ent & _ & _ & _ & Ht & Hc).
unfold search. cbv zeta. rewrite (query_accepted _ Hlen).
unfold mbind at 1. unfold M_bind at 1. rewrite Hc, Ht. reflexivity.
Qed.

Lemma yf_backup_length (q : string) (i : res pyval) :
(length (yf_backup q i []) <= 1)%nat.
Proof.
unfold yf_backup. destruct i as [v | e]; [| cbn; lia].
destruct (if truthy v then v else VDict []); cbn; try lia.
destruct (truthy _); cbn; lia.
Qed.
End SearchRoute.

(** X12.  A query that is empty or a single character after stripping
    whitespace is answered with the empty list at once: no cache lookup, no
    request, no cache entry. *)
Theorem search_short_query_untouched (env : providers) (arg : string) (s : state) :
  (String.length (strip arg) < 2)%nat ->
  search env arg s = (Ok (VList []), s).
Proof.
  intros H. unfold search. cbv zeta. now rewrite (query_rejected _ H).
Qed.

(** [search_short_query_untouched] at sample inputs. *)
Lemma search_short_query_untouched_witness :
  search all_down "  t  " cold = (Ok (VList []), cold).
Proof.
  apply search_short_query_untouched. vm_compute. lia.
Defined.

(** X13.  A search that goes upstream sends the realtime search request
    and, only if that finds nothing, one yfinance lookup of the query with
    [.NS] appended: one or two requests, never more.  It returns at most 15
    hits, stores them under the lowercased query and stamps the entry with
    the time after the last request. *)
Theorem search_upstream (env : providers) (arg : string) (s : state) :
  let q := strip arg in
  let run := search env arg s in
  (2 <= String.length q)%nat ->
  served (search_key q) "search" s = None ->
  exists hits,
    fst run = Ok (VList hits) /\ (length hits <= 15)%nat /\
    (calls (snd run) = calls s ++ [Get (search_url q)] /\ hits <> [] \/
     calls (snd run) = calls s ++ [Get (search_url q); YfInfo (q +:+ ".NS")] /\
     (length hits <= 1)%nat) /\
    cache (snd run) !! ("search:" +:+ lower q)
    = Some {| d := VList hits; t := clock (snd run) |}.
Proof.
  intros q run Hlen Hs. subst run.
  rewrite (search_miss env arg s Hlen Hs). fold q.
  exists (search_results env q). cbn [fst snd].
  split; [reflexivity |].
  pose proof (proj1 (parse_search_shape (requests_get env (search_url q)))) as H15.
  pose proof (yf_backup_length q (yf_info env (q +:+ ".NS"))) as H1.
  unfold search_results, search_requests.
  destruct (parse_search (requests_get env (search_url q))) as [| h hits] eqn:E.
  - split; [lia |]. split.
    + right. split; [| exact H1].
      cbn [store issue calls]. now rewrite (proj1 (looked_up_calls _ _ s)).
    + apply lookup_insert_eq.
  - split; [exact H15 |]. split.
    + left. split; [| discriminate].
      cbn [store issue calls]. now rewrite (proj1 (looked_up_calls _ _ s)).
    + apply lookup_insert_eq.
Qed.

(** [search_upstream] at sample inputs. *)
Lemma search_upstream_witness :
  exists hits,
    fst (search all_down "tcs" cold) = Ok (VList hits) /\ (length hits <= 15)%nat.
Proof.
  destruct (search_upstream all_down "tcs" cold) as (hits & H1 & H2 & _).
  - vm_compute. lia.
  - apply cold_serves_nothing.
  - now exists hits.
Defined.

(** X14.  The search cache ignores letter case and surrounding whitespace:
    after a search returned a non-empty result [r], every query with the same
    stripped, lowercased form returns [r] from the cache for 86400 seconds
    after the entry's time stamp, without any request. *)
Theorem search_cache_ignores_case (env1 env2 : providers) (arg1 arg2 : string)
    (s s1 : state) (r : pyval) :
  (2 <= String.length (strip arg1))%nat ->
  (2 <= String.length (strip arg2))%nat ->
  lower (strip arg2) = lower (strip arg1) ->
  search env1 arg1 s = (Ok r, s1) ->
  truthy r = true ->
  exists ent,
    cache s1 !! search_key (strip arg1) = Some ent /\ d ent = r /\
    forall s2, cache s2 = cache s1 -> (clock s2 - t ent <= 86400)%R ->
               search env2 arg2 s2 = (Ok r, s2).
Proof.
  intros Hlen1 Hlen2 Hsame Hrun Ht.
  assert (Hkey : search_key (strip arg2) = search_key (strip arg1))
    by (unfold search_key; now rewrite Hsame).
  assert (Hagain : forall ent s2,
             cache s1 !! search_key (strip arg1) = Some ent -> d ent = r ->
             cache s2 = cache s1 -> (clock s2 - t ent <= 86400)%R ->
             search env2 arg2 s2 = (Ok r, s2)).
  { intros ent s2 Hent Hd Hc Hfresh. apply (search_hit env2 _ _ _ Hlen2).
    rewrite Hkey. rewrite <- Hc in Hent. rewrite <- Hd in Ht. rewrite <- Hd.
    now apply served_fresh. }
  destruct (served (search_key (strip arg1)) "search" s) as [c |] eqn:Hs.
  - rewrite (search_hit env1 arg1 s c Hlen1 Hs) in Hrun. injection Hrun as -> ->.
    destruct (served_inv _ _ _ _ Hs) as (ent & Hent & Hd & _).
    exists ent. repeat split; try assumption. intros s2. now apply Hagain.
  - rewrite (search_miss env1 arg1 s Hlen1 Hs) in Hrun. injection Hrun as <- <-.
    eexists. split; [apply lookup_insert_eq |]. split; [reflexivity |].
    intros s2. apply Hagain; [apply lookup_insert_eq | reflexivity].
Qed.

(** [search_cache_ignores_case] at sample inputs. *)
Lemma search_cache_ignores_case_witness :
  exists ent,
    cache (holding "search:tcs" (VList [VStr "hit"]) 10) !! search_key (strip "TCS ")
    = Some ent /\
    d ent = VList [VStr "hit"] /\
    forall s2,
      cache s2 = cache (holding "search:tcs" (VList [VStr "hit"]) 10) ->
      (clock s2 - t ent <= 86400)%R ->
      search all_down " tcs" s2 = (Ok (VList [VStr "hit"]), s2).
Proof.
  apply (search_cache_ignores_case all_down all_down "TCS " " tcs"
           (holding "search:tcs" (VList [VStr "hit"]) 10)).
  - vm_compute. lia.
  - vm_compute. lia.
  - reflexivity.
  - apply search_hit; [vm_compute; lia |].
    apply (proj1 (served_fresh "search:tcs" "search"
                    (holding "search:tcs" (VList [VStr "hit"]) 10)
                    {| d := VList [VStr "hit"]; t := 0 |}
                    (lookup_singleton_eq _ _) ltac:(unfold unexpired, TTL_get, TTL; simpl; lra)
                    eq_refl)).
  - reflexivity.
Defined.

(** ** The batch route *)

Section BatchMore.
Local Open Scope R_scope.

Lemma quote_summary_numeric (kv : dict) (m : R) :
as_num (dict_get "market_cap" kv (VNum 0)) = Some m ->
quote_summary (VDict kv)
= Ok (VDict [("sym", dict_get "symbol" kv (VStr ""));
             ("name", dict_get "company_name" kv (VStr ""));
             ("cmp", dict_get "last_price" kv (VNum 0));
             ("pe", dict_get "pe_ratio" kv (VNum 0));
             ("mcapCr", VNum (round_to 0 (m / 1e7)));
             ("dayChangePct", dict_get "percent_change" kv (VNum 0))]).
Proof.
intros Hm. unfold quote_summary, py_div. rewrite Hm. cbn [as_num].
destruct (Req_dec_T 1e7 0); [lra |]. reflexivity.
Qed.

Lemma small_cap_rounds_to_zero (m : R) :
0 <= m <= 1e6 -> round_to 0 (m / 1e7) = 0.
Proof.
intros H. rewrite (round_to_near 0 _ 0); simpl; lra.
Qed.

Lemma batch_quotes_congr (env : providers) (symbols1 symbols2 : list string)
  (s : state) :
symbols1 <> [] -> symbols2 <> [] ->
batch_key symbols1 = batch_key symbols2 ->
batch_url symbols1 = batch_url symbols2 ->
batch_quotes env symbols1 s = batch_quotes env symbols2 s.
Proof.
intros H1 H2 Hk Hu.
destruct symbols1 as [| x1 l1]; [contradiction |].
destruct symbols2 as [| x2 l2]; [contradiction |].
unfold batch_quotes. cbv zeta. now rewrite Hk, Hu.
Qed.
End BatchMore.

(** X15.  Batch quotes always divides the market cap by 10,000,000, without
    the unit heuristic of the single-symbol route: for a value between 0 and
    1,000,000 that the realtime provider reports, the resolved record shows
    the value rounded to a whole number while the batch summary of a stock
    with the same value shows 0. *)
Theorem batch_market_cap_without_heuristic (env : providers) (symbol : string)
    (s : state) (q : quote) (m : R) (r : pyval) (kv : dict) :
  served (full_key (normalize symbol)) "quote" s = None ->
  isma_data env (normalize symbol) = Some q ->
  mcap_raw q = VNum m -> (0 <= m <= 1e6)%R ->
  fst (fullstock env symbol s) = Ok r ->
  dict_get "market_cap" kv (VNum 0) = VNum m ->
  field "mcapCr" r = VNum (round_to 0 m) /\
  exists summary,
    quote_summary (VDict kv) = Ok summary /\ field "mcapCr" summary = VNum 0.
Proof.
  intros Hs Hq Hraw Hm Hr Hkv. split.
  - destruct (fullstock_miss_merged env symbol s r Hs Hr)
      as (p & m' & ys & src & _ & Hm' & ->).
    rewrite Hq in Hm'. cbn in Hm'. rewrite Hraw in Hm'. injection Hm' as <-.
    cbn [field dict_get merged result_dict String.eqb Ascii.eqb Bool.eqb].
    now rewrite crores_small by lra.
  - eexists. split.
    + apply (quote_summary_numeric kv m). now rewrite Hkv.
    + cbn [field dict_get String.eqb Ascii.eqb Bool.eqb].
      now rewrite small_cap_rounds_to_zero.
Qed.

(** [batch_market_cap_without_heuristic] at sample inputs. *)
Lemma batch_market_cap_without_heuristic_witness :
  field "mcapCr" (outcome (fullstock (quoting 10 500 VNone) "TCS" cold))
  = VNum (round_to 0 500) /\
  exists summary,
    quote_summary (VDict [("symbol", VStr "TCS"); ("market_cap", VNum 500)])
    = Ok summary /\
    field "mcapCr" summary = VNum 0.
Proof.
  apply (batch_market_cap_without_heuristic (quoting 10 500 VNone) "TCS" cold
           {| cmp := VNum 10; mcap_raw := VNum 500; pe := VNum 0;
              eps := VNum 0; sector := VStr ""; industry := VStr "";
              name := VStr ""; change := VNum 0; changePct := VNum 0;
              yearHigh := VNum 0; yearLow := VNum 0; volume := VNum 0;
              bookValue := VNum 0; dividendYield := VNum 0 |} 500%R).
  - apply cold_serves_nothing.
  - reflexivity.
  - reflexivity.
  - lra.
  - unfold outcome. now rewrite quoting_run.
  - reflexivity.
Defined.

(** X16.  Symbols after the 20th play no part in a batch request: two
    requests with the same first 20 symbols behave identically in every
    state (same cache key, same upstream request, same result), whatever
    follows them. *)
Theorem batch_ignores_symbols_after_20 (env : providers)
    (first rest1 rest2 : list string) (s : state) :
  length first = 20%nat ->
  batch_quotes env (first ++ rest1) s = batch_quotes env (first ++ rest2) s.
Proof.
  intros H.
  assert (Hne : forall rest, first ++ rest <> []).
  { intros rest E. apply (f_equal length) in E. rewrite length_app in E.
    cbn in E. lia. }
  assert (Htake : forall rest, take 20 (first ++ rest) = first).
  { intros rest. rewrite take_app_length' by (symmetry; exact H).
    reflexivity. }
  apply batch_quotes_congr; try apply Hne.
  - unfold batch_key. now rewrite !Htake.
  - unfold batch_url. now rewrite !Htake.
Qed.

(** [batch_ignores_symbols_after_20] at sample inputs. *)
Lemma batch_ignores_symbols_after_20_witness :
  batch_quotes all_down (replicate 20 "TCS" ++ ["INFY"]) cold
  = batch_quotes all_down (replicate 20 "TCS" ++ ["WIPRO"; "HDFC"]) cold.
Proof.
  apply batch_ignores_symbols_after_20. reflexivity.
Defined.

Section BatchKeyClash.

Lemma sorted_pair (a b : string) : String.le a b -> sorted [a; b] = [a; b].
Proof.
intros H. unfold sorted.
apply (StronglySorted_unique String.le).
- apply StronglySorted_merge_sort; apply _.
- repeat constructor. exact H.
- apply merge_sort_Permutation.
Qed.

Lemma batch_key_joined (a b : string) :
String.le a b -> batch_key [a +:+ "_" +:+ b] = batch_key [a; b].
Proof.
intros H. unfold batch_key. cbn [take]. rewrite (sorted_pair a b H).
reflexivity.
Qed.

Lemma batch_shared_entry (env1 env2 : providers) (symbols1 symbols2 : list string)
  (s s1 : state) (r : pyval) :
symbols1 <> [] -> symbols2 <> [] ->
batch_key symbols1 = batch_key symbols2 ->
batch_quotes env1 symbols1 s = (Ok r, s1) ->
truthy r = true ->
exists ent,
  cache s1 !! batch_key symbols1 = Some ent /\ d ent = r /\
  forall s2, cache s2 = cache s1 ->
             unexpired "quote" (clock s2) ent ->
             batch_quotes env2 symbols2 s2 = (Ok r, s2).
Proof.
intros Hne1 Hne2 Hkey Hrun Ht.
assert (Hagain : forall ent s2,
           cache s1 !! batch_key symbols1 = Some ent -> d ent = r ->
           cache s2 = cache s1 -> unexpired "quote" (clock s2) ent ->
           batch_quotes env2 symbols2 s2 = (Ok r, s2)).
{ intros ent s2 Hent Hd Hc Hfresh. apply (batch_quotes_hit env2 _ _ _ Hne2).
  rewrite <- Hkey. rewrite <- Hc in Hent. rewrite <- Hd in Ht. rewrite <- Hd.
  now apply served_fresh. }
destruct (served (batch_key symbols1) "quote" s) as [c |] eqn:Hs.
- rewrite (batch_quotes_hit env1 symbols1 s c Hne1 Hs) in Hrun.
  injection Hrun as -> ->.
  destruct (served_inv _ _ _ _ Hs) as (ent & Hent & Hd & _).
  exists ent. repeat split; try assumption. intros s2. now apply Hagain.
- rewrite (batch_quotes_miss env1 symbols1 s Hne1 Hs) in Hrun.
  injection Hrun as <- <-.
  eexists. split; [apply lookup_insert_eq |]. split; [reflexivity |].
  intros s2. apply Hagain; [apply lookup_insert_eq | reflexivity].
Qed.
End BatchKeyClash.

(** X17.  The batch cache key joins the sorted symbols with [_] and so does
    not tell a symbol containing [_] from two symbols: for [a <= b] the
    one-symbol request [a_b] and the two-symbol request [a, b] have the same
    key, and the non-empty result cached for the first is returned to the
    second for 300 seconds, without any upstream request. *)
Theorem batch_key_clash (env1 env2 : providers) (a b : string) (s s1 : state)
    (r : pyval) :
  String.le a b ->
  batch_quotes env1 [a +:+ "_" +:+ b] s = (Ok r, s1) ->
  truthy r = true ->
  batch_key [a +:+ "_" +:+ b] = batch_key [a; b] /\
  exists ent,
    cache s1 !! batch_key [a; b] = Some ent /\ d ent = r /\
    forall s2, cache s2 = cache s1 -> (clock s2 - t ent <= 300)%R ->
               batch_quotes env2 [a; b] s2 = (Ok r, s2).
Proof.
  intros Hle Hrun Ht. split; [now apply batch_key_joined |].
  destruct (batch_shared_entry env1 env2 [a +:+ "_" +:+ b] [a; b] s s1 r
              ltac:(discriminate) ltac:(discriminate)
              (batch_key_joined a b Hle) Hrun Ht)
    as (ent & Hent & Hd & Hagain).
  exists ent. rewrite <- (batch_key_joined a b Hle).
  repeat split; try assumption.
Qed.

(** [batch_key_clash] at sample inputs. *)
Lemma batch_key_clash_witness :
  batch_key ["BAJAJ" +:+ "_" +:+ "FINSV"] = batch_key ["BAJAJ"; "FINSV"].
Proof.
  refine (proj1 (batch_key_clash (answering half_good_batch) all_down
                   "BAJAJ" "FINSV" cold
                   (snd (batch_quotes (answering half_good_batch)
                           ["BAJAJ" +:+ "_" +:+ "FINSV"] cold))
                   (VList (fst (batch_results half_good_batch))) _ _ _)).
  - vm_compute. exact I.
  - rewrite batch_quotes_miss; [reflexivity | discriminate | apply cold_serves_nothing].
  - now rewrite half_good_batch_results.
Defined.

(** ** Range and sign of a growth rate *)

Section GrowthRange.
Local Open Scope R_scope.

Lemma round_half_even_lower (x : R) (k : Z) :
IZR k <= x -> (k <= round_half_even x)%Z.
Proof.
intros H. pose proof (Zfloor_lub k x H) as Hf. unfold round_half_even.
cbv zeta.
destruct (Rlt_dec (x - IZR (Zfloor x)) (1 / 2)); [lia |].
destruct (Rlt_dec (1 / 2) (x - IZR (Zfloor x))); [lia |].
destruct (Z.even (Zfloor x)); lia.
Qed.

Lemma round_half_even_upper (x : R) (k : Z) :
x <= IZR k -> (round_half_even x <= k)%Z.
Proof.
intros H. destruct (Req_dec_T x (IZR k)) as [-> | Hne].
- rewrite round_half_even_IZR. lia.
- assert (Hf : (Zfloor x < k)%Z).
  { apply lt_IZR. pose proof (Zfloor_bound x). lra. }
  unfold round_half_even. cbv zeta.
  destruct (Rlt_dec (x - IZR (Zfloor x)) (1 / 2)); [lia |].
  destruct (Rlt_dec (1 / 2) (x - IZR (Zfloor x))); [lia |].
  destruct (Z.even (Zfloor x)); lia.
Qed.

Lemma round_to_lower (ndigits : nat) (x : R) (k : Z) :
IZR k <= x * 10 ^ ndigits -> IZR k / 10 ^ ndigits <= round_to ndigits x.
Proof.
intros H. unfold round_to.
assert (Hp : 0 < 10 ^ ndigits) by (apply pow_lt; lra).
apply Rmult_le_compat_r; [left; now apply Rinv_0_lt_compat |].
apply IZR_le. now apply round_half_even_lower.
Qed.

Lemma round_to_upper (ndigits : nat) (x : R) (k : Z) :
x * 10 ^ ndigits <= IZR k -> round_to ndigits x <= IZR k / 10 ^ ndigits.
Proof.
intros H. unfold round_to.
assert (Hp : 0 < 10 ^ ndigits) by (apply pow_lt; lra).
apply Rmult_le_compat_r; [left; now apply Rinv_0_lt_compat |].
apply IZR_le. now apply round_half_even_upper.
Qed.

Lemma Rpower_ge_1 (x y : R) : 1 <= x -> 0 <= y -> 1 <= Rpower x y.
Proof.
intros Hx Hy. unfold Rpower. rewrite <- exp_0.
assert (Hl : 0 <= ln x).
{ destruct Hx as [Hx | <-]; [| rewrite ln_1; lra].
  rewrite <- ln_1. left. apply ln_increasing; lra. }
assert (H : 0 <= y * ln x) by (apply Rmult_le_pos; assumption).
destruct H as [H | <-]; [left; now apply exp_increasing | lra].
Qed.

Lemma Rpower_le_1 (x y : R) : 0 < x <= 1 -> 0 <= y -> Rpower x y <= 1.
Proof.
intros [Hx0 Hx] Hy. unfold Rpower. rewrite <- exp_0.
assert (Hl : ln x <= 0).
{ destruct Hx as [Hx | ->]; [| rewrite ln_1; lra].
  rewrite <- ln_1. left. apply ln_increasing; lra. }
assert (H : y * ln x <= 0) by nra.
destruct H as [H | ->]; [left; now apply exp_increasing | lra].
Qed.

Lemma cagr_value_range (a b : R) (n : Z) :
(1 <= n)%Z -> 0 < a -> 0 < b ->
-100 <= cagr_value a b n /\
(b <= a -> 0 <= cagr_value a b n) /\
(a <= b -> cagr_value a b n <= 0).
Proof.
intros Hn Ha Hb. unfold cagr_value.
assert (Hy : 0 <= 1 / IZR n).
{ assert (1 <= IZR n) by (apply IZR_le; lia).
  left. apply Rdiv_lt_0_compat; lra. }
assert (Hq : 0 < a / b) by (apply Rdiv_lt_0_compat; assumption).
assert (Hpos : 0 < Rpower (a / b) (1 / IZR n)) by (unfold Rpower; apply exp_pos).
split; [| split].
- apply Rle_trans with (IZR (-1000) / 10 ^ 1); [simpl; lra |].
  apply round_to_lower. simpl. lra.
- intros Hle.
  assert (1 <= a / b).
  { apply (Rmult_le_reg_r b); [assumption |]. unfold Rdiv.
    rewrite Rmult_assoc, Rinv_l by lra. lra. }
  pose proof (Rpower_ge_1 _ _ H Hy).
  apply Rle_trans with (IZR 0 / 10 ^ 1); [simpl; lra |].
  apply round_to_lower. simpl. lra.
- intros Hle.
  assert (a / b <= 1).
  { apply (Rmult_le_reg_r b); [assumption |]. unfold Rdiv.
    rewrite Rmult_assoc, Rinv_l by lra. lra. }
  pose proof (Rpower_le_1 _ _ (conj Hq H) Hy).
  apply Rle_trans with (IZR 0 / 10 ^ 1); [| simpl; lra].
  apply round_to_upper. simpl. lra.
Qed.
End GrowthRange.

(** X18.  A growth rate that [calc_cagr] reports as a number (window
    [n >= 1], positive values [a] at index 0 and [b] at index [n]) is never
    below -100, is not negative when the latest value [a] is at least the
    older value [b], is not positive when [a] is at most [b], and is 0 when
    they are equal. *)
Theorem calc_cagr_range_and_sign (arr : list dict) (fld : string) (n : Z)
    (y0 yn : dict) (a b : R) :
  1 <= n -> arr !! 0%nat = Some y0 -> arr !! Z.to_nat n = Some yn ->
  dict_get fld y0 VNone = VNum a -> dict_get fld yn VNone = VNum b ->
  (0 < a)%R -> (0 < b)%R ->
  exists v,
    calc_cagr arr fld n = Ok (VNum v) /\
    (-100 <= v)%R /\
    (b <= a -> 0 <= v)%R /\ (a <= b -> v <= 0)%R /\ (a = b -> v = 0%R).
Proof.
  intros Hn H0 Hyn Ha Hb Hapos Hbpos.
  exists (cagr_value a b n).
  destruct (cagr_value_range a b n Hn Hapos Hbpos) as (Hlo & Hup & Hdown).
  split; [now apply (calc_cagr_defined arr fld n y0 yn a b) |].
  repeat split; try assumption.
  intros E. apply Rle_antisym; [apply Hdown | apply Hup]; lra.
Qed.

(** [calc_cagr_range_and_sign] at sample inputs. *)
Lemma calc_cagr_range_and_sign_witness :
  exists v,
    calc_cagr [[("rev", VNum 100)]; [("rev", VNum 150)]; [("rev", VNum 200)]]
      "rev" 2 = Ok (VNum v) /\
    (-100 <= v)%R /\
    (200 <= 100 -> 0 <= v)%R /\ (100 <= 200 -> v <= 0)%R /\
    (100%R = 200%R -> v = 0%R).
Proof.
  apply (calc_cagr_range_and_sign _ "rev" 2
           [("rev", VNum 100)] [("rev", VNum 200)] 100%R 200%R);
    try reflexivity; try lia; lra.
Defined.

(** X19.  With window 0 the calculator does not return: on a series whose
    first entry has a positive value under the field it raises
    ZeroDivisionError (the exponent [1 / n]). *)
Theorem calc_cagr_window_0 (arr : list dict) (fld : string) (y0 : dict) (a : R) :
  arr !! 0%nat = Some y0 -> dict_get fld y0 VNone = VNum a -> (0 < a)%R ->
  calc_cagr arr fld 0 = Raise ZeroDivisionError.
Proof.
  intros H0 Ha Hapos.
  rewrite (calc_cagr_unfold arr fld 0 y0 y0) by (lia || assumption). cbv zeta.
  rewrite (number_read _ _ _ Ha), !guard_number.
  destruct (Rlt_dec 0 a); [| lra]. simpl.
  unfold py_div. simpl.
  destruct (Req_dec_T a 0); [lra |]. simpl.
  destruct (Req_dec_T 0 0); [reflexivity | contradiction].
Qed.

(** [calc_cagr_window_0] at sample inputs. *)
Lemma calc_cagr_window_0_witness :
  calc_cagr [[("rev", VNum 200)]] "rev" 0 = Raise ZeroDivisionError.
Proof.
  apply (calc_cagr_window_0 _ "rev" [("rev", VNum 200)] 200%R);
    [reflexivity | reflexivity | lra].
Defined.

(** ** Each route keeps to its own cache key *)

Section CacheFrame.

Lemma looked_up_frame (key ty k : string) (s : state) :
k <> key -> cache (looked_up key ty s) !! k = cache s !! k.
Proof.
intros Hk. unfold looked_up, cached.
destruct (cache s !! key) as [ent |]; [| reflexivity].
destruct (Rlt_dec _ _); [| reflexivity].
cbn [snd cache]. now apply lookup_delete_ne.
Qed.

Lemma store_issue_frame (env : providers) (key ty k : string) (data : pyval)
  (rs : list request) (s : state) :
k <> key ->
cache (store key data (issue env rs (looked_up key ty s))) !! k = cache s !! k.
Proof.
intros Hk. unfold store, issue. cbn [cache].
rewrite lookup_insert_ne by congruence. now apply looked_up_frame.
Qed.

Lemma fullstock_frame (env : providers) (symbol k : string) (s : state) :
k <> full_key (normalize symbol) ->
cache (snd (fullstock env symbol s)) !! k = cache s !! k.
Proof.
intros Hk.
destruct (served (full_key (normalize symbol)) "quote" s) as [c |] eqn:Hs.
- now rewrite (fullstock_hit env symbol s c Hs).
- rewrite (fullstock_miss env symbol s Hs).
  destruct (fullstock_merge _ _ _ _); cbn [snd].
  + now apply store_issue_frame.
  + unfold issue. cbn [cache]. now apply looked_up_frame.
Qed.

Lemma search_frame (env : providers) (arg k : string) (s : state) :
k <> search_key (strip arg) ->
cache (snd (search env arg s)) !! k = cache s !! k.
Proof.
intros Hk.
destruct (Nat.lt_ge_cases (String.length (strip arg)) 2) as [Hshort | Hlen].
- unfold search. cbv zeta. now rewrite (query_rejected _ Hshort).
- destruct (served (search_key (strip arg)) "search" s) as [c |] eqn:Hs.
  + now rewrite (search_hit env arg s c Hlen Hs).
  + rewrite (search_miss env arg s Hlen Hs). cbn [snd].
    now apply store_issue_frame.
Qed.

Lemma batch_quotes_frame (env : providers) (symbols : list string) (k : string)
  (s : state) :
k <> batch_key symbols ->
cache (snd (batch_quotes env symbols s)) !! k = cache s !! k.
Proof.
intros Hk. destruct symbols as [| x l]; [reflexivity |].
destruct (served (batch_key (x :: l)) "quote" s) as [c |] eqn:Hs.
- now rewrite (batch_quotes_hit env (x :: l) s c ltac:(discriminate) Hs).
- rewrite (batch_quotes_miss env (x :: l) s ltac:(discriminate) Hs). cbn [snd].
  now apply store_issue_frame.
Qed.

Lemma key_spaces_apart (sym q : string) (symbols : list string) :
full_key sym <> search_key q /\ full_key sym <> batch_key symbols /\
search_key q <> batch_key symbols.
Proof.
unfold full_key, search_key, batch_key.
repeat split; intros H; cbn [String.append] in H; discriminate H.
Qed.
End CacheFrame.

(** X20.  Each route reads and writes the cache only under its own key
    ([full:<sym>], [search:<query>], [batch:<symbols>]): every other entry is
    left as it was, whether the route is served from the cache, goes
    upstream or raises.  The three kinds of key never coincide, so no route
    changes what another has cached. *)
Theorem routes_keep_to_their_key (env : providers) (s : state) (k : string) :
  (forall symbol, k <> full_key (normalize symbol) ->
     cache (snd (fullstock env symbol s)) !! k = cache s !! k) /\
  (forall arg, k <> search_key (strip arg) ->
     cache (snd (search env arg s)) !! k = cache s !! k) /\
  (forall symbols, k <> batch_key symbols ->
     cache (snd (batch_quotes env symbols s)) !! k = cache s !! k) /\
  (forall sym q symbols,
     full_key sym <> search_key q /\ full_key sym <> batch_key symbols /\
     search_key q <> batch_key symbols).
Proof.
  split; [intros symbol; apply fullstock_frame |].
  split; [intros arg; apply search_frame |].
  split; [intros symbols; apply batch_quotes_frame |].
  apply key_spaces_apart.
Qed.

(** [routes_keep_to_their_key] at sample inputs: resolving INFY, searching
    for it and a batch with it leave the entry of TCS alone. *)
Lemma routes_keep_to_their_key_witness :
  let s := holding "full:TCS" (VStr "kept") 1000 in
  cache (snd (fullstock (quoting 10 500 VNone) "infy.ns" s)) !! "full:TCS"
  = cache s !! "full:TCS" /\
  cache (snd (search all_down "infy" s)) !! "full:TCS" = cache s !! "full:TCS" /\
  cache (snd (batch_quotes all_down ["INFY"] s)) !! "full:TCS"
  = cache s !! "full:TCS".
Proof.
  intros s.
  destruct (routes_keep_to_their_key (quoting 10 500 VNone) s "full:TCS")
    as (Hf & _).
  destruct (routes_keep_to_their_key all_down s "full:TCS")
    as (_ & Hs & Hb & _).
  split; [apply Hf; vm_compute; discriminate |].
  split; [apply Hs; vm_compute; discriminate |].
  apply Hb; vm_compute; discriminate.
Defined.

(** ** Suffixed symbols in a batch *)

Section BatchSuffix.

Lemma append_self (base suffix : string) : base +:+ suffix = base -> suffix = "".
Proof.
induction base as [| c base IH]; [trivial |].
change (String c base +:+ suffix) with (String c (base +:+ suffix)).
intros [= H]. now apply IH.
Qed.

Lemma clean_symbol_suffixed (base suffix : string) :
has_dot base = false -> suffix = ".NS" \/ suffix = ".BO" ->
clean_symbol (base +:+ suffix) = base.
Proof.
intros H [-> | ->]; unfold clean_symbol.
- rewrite (replace_dot_suffix "NS" ".NS" base H).
  change (replace ".NS" "" ".NS") with "". rewrite append_empty.
  now apply replace_no_dot.
- rewrite (replace_dot_suffix "NS" ".BO" base H).
  change (replace ".NS" "" ".BO") with ".BO".
  rewrite (replace_dot_suffix "BO" ".BO" base H).
  change (replace ".BO" "" ".BO") with "". now apply append_empty.
Qed.

Lemma batch_key_single (x : string) : batch_key [x] = "batch:" +:+ x.
Proof. reflexivity. Qed.

Lemma batch_key_suffixed (base suffix : string) :
suffix <> "" -> batch_key [base +:+ suffix] <> batch_key [base].
Proof.
intros Hne H. rewrite !batch_key_single in H.
cbn [String.append] in H. injection H as H.
apply Hne. now apply (append_self base).
Qed.
End BatchSuffix.

(** X21.  The batch route removes an [.NS] or [.BO] suffix from the symbols
    it sends upstream but not from the symbols in its cache key: for a
    ticker without a dot, the requests for [[base]] and for [[base.NS]] have
    the same upstream URL and different cache keys, so right after a batch
    for [[base]] a batch for [[base.NS]] with no entry of its own sends the
    same upstream request again. *)
Theorem batch_suffix_not_in_key (env1 env2 : providers) (base suffix : string)
    (s : state) :
  has_dot base = false -> suffix = ".NS" \/ suffix = ".BO" ->
  cache s !! batch_key [base +:+ suffix] = None ->
  let s1 := snd (batch_quotes env1 [base] s) in
  batch_url [base +:+ suffix] = batch_url [base] /\
  batch_key [base +:+ suffix] <> batch_key [base] /\
  calls (snd (batch_quotes env2 [base +:+ suffix] s1))
  = calls s1 ++ [Get (batch_url [base])].
Proof.
  intros Hdot Hsuf Hnone s1.
  assert (Hurl : batch_url [base +:+ suffix] = batch_url [base]).
  { unfold batch_url. cbn [take map].
    now rewrite (clean_symbol_suffixed base suffix Hdot Hsuf),
      (clean_symbol_plain base Hdot). }
  assert (Hkey : batch_key [base +:+ suffix] <> batch_key [base]).
  { apply batch_key_suffixed. destruct Hsuf as [-> | ->]; discriminate. }
  split; [exact Hurl |]. split; [exact Hkey |].
  assert (Hnone1 : cache s1 !! batch_key [base +:+ suffix] = None).
  { unfold s1. now rewrite batch_quotes_frame. }
  destruct (served_absent _ "quote" _ Hnone1) as [Hs Hl].
  rewrite (batch_quotes_miss env2 [base +:+ suffix] s1 ltac:(discriminate) Hs). cbn [snd].
  unfold store, issue. cbn [calls]. now rewrite Hl, Hurl.
Qed.

(** [batch_suffix_not_in_key] at sample inputs. *)
Lemma batch_suffix_not_in_key_witness :
  let s1 := snd (batch_quotes (answering half_good_batch) ["TCS"] cold) in
  batch_url ["TCS" +:+ ".NS"] = batch_url ["TCS"] /\
  batch_key ["TCS" +:+ ".NS"] <> batch_key ["TCS"] /\
  calls (snd (batch_quotes all_down ["TCS" +:+ ".NS"] s1))
  = calls s1 ++ [Get (batch_url ["TCS"])].
Proof.
  apply (batch_suffix_not_in_key (answering half_good_batch) all_down
           "TCS" ".NS" cold);
    [reflexivity | left; reflexivity | reflexivity].
Defined.
